(** * Flutter search of the MAST beam / piston-theory example

    A shallow embedding of [MAST::BeamPistonTheoryFlutterAnalysis]
    (examples/structural/beam_piston_theory_flutter/beam_piston_theory_flutter.cpp)
    together with the part of the time-domain flutter solver it drives.

    C++ [Real] values are embedded as exact rationals [Q]; rounding of the
    machine's floating point numbers is outside this development.  Pointers
    are addresses into an explicit store of [MAST::Parameter] objects, and a
    null pointer is [None]. *)

From Stdlib Require Import QArith Qabs Lqa.
From stdpp Require Import base gmap strings list sorting.

Abbreviation Real := Q (only parsing).
Abbreviation ptr := nat (only parsing).

(** ** Comparisons on [Real] as the code evaluates them *)

Definition Qltb (x y : Real) : bool := negb (Qle_bool y x).

(** ** Failures

    [libmesh_assert] aborts the program when its condition is false, naming
    the condition; reading through a pointer that holds no object has no
    defined result. *)

Inductive Error :=
| AssertionFailure (condition : string)
| InvalidPointer
| StaleRootError.

Inductive result (A : Type) :=
| Ok (a : A)
| Err (e : Error).
Arguments Ok {A} a.
Arguments Err {A} e.

Definition is_Ok {A} (r : result A) : bool :=
  match r with Ok _ => true | Err _ => false end.

(** A pointer tested as a condition. *)
Definition non_null {A} (p : option A) : bool :=
  match p with Some _ => true | None => false end.

(** An eigenvalue [σ + iω] of the reduced problem, as the pair [(σ, ω)]. *)
Abbreviation Complex := (Q * Q)%type (only parsing).

(** Modelled from the spec: [MAST::FlutterRootBase] is declared in
    aeroelasticity/flutter_root_base.h, which is not among the sources; by
    section 3 a flutter root is the critical eigenvalue at the velocity [V]
    with the sensitivity of that velocity.  The driver reads [V] and
    [V_sens]. *)
Record FlutterRootBase := {
  V : Real;            (* flutter velocity *)
  root : Complex;      (* the critical eigenvalue *)
  V_sens : Real        (* dV/dp, filled by calculate_sensitivity *)
}.

(** * The flutter solver

    [MAST::TimeDomainFlutterSolver] is declared in
    aeroelasticity/time_domain_flutter_solver.h, which is not among the
    sources.  Its operations are modelled from sections 4.3 to 4.5 and 6 of
    the specification. *)

Module FlutterSolver.

Local Open Scope Q_scope.

Record Bracket := { V_lo : Real; V_hi : Real }.

(** One bisection iterate: the midpoint, the tracked eigenvalue found there
    and the bracket after the replacement. *)
Record Iterate := {
  V_mid : Real;
  lambda_mid : Complex;
  bracket : Bracket
}.

Inductive Indication := Converged | NotConverged | NoCrossingFound.

Record SearchResult := {
  found : bool;
  critical : option FlutterRootBase;
  indication : Indication;
  evaluated : list (Real * Complex)     (* the samples and iterates, in order *)
}.

Section Search.

(** The tracked mode's eigenvalue as a function of the velocity: reduced
    operator construction, the generalized eigen-solve and the mode
    correspondence are external to the search. *)
Variable lambda : Real -> Complex.

Definition re_lambda (v : Real) : Real := fst (lambda v).

(** Modelled from the spec: section 4.3, the [n_divisions + 1] evenly
    spaced velocities of the coarse sweep. *)
Definition sample (lo hi : Real) (n_divisions k : nat) : Real :=
  lo + inject_Z (Z.of_nat k) * ((hi - lo) / inject_Z (Z.of_nat n_divisions)).

Definition samples (lo hi : Real) (n_divisions : nat) : list Real :=
  map (sample lo hi n_divisions) (seq 0 (S n_divisions)).

Definition sweep (lo hi : Real) (n_divisions : nat) : list (Real * Complex) :=
  map (fun v => (v, lambda v)) (samples lo hi n_divisions).

(** Modelled from the spec: section 4.3, a bracket is declared between two
    consecutive samples when the tracked real part goes from non-positive
    to positive; the first one (lowest velocity) is reported. *)
Fixpoint first_crossing (pts : list (Real * Complex)) : option Bracket :=
  match pts with
  | (v0, l0) :: (((v1, l1) :: _) as rest) =>
      if Qle_bool (fst l0) 0 && Qltb 0 (fst l1)
      then Some {| V_lo := v0; V_hi := v1 |}
      else first_crossing rest
  | _ => None
  end.

(** Modelled from the spec: section 4.4, steps 1 to 4 of one bisection
    iteration. *)
Definition refine (b : Bracket) : Iterate :=
  let mid := (V_lo b + V_hi b) / 2 in
  let l := lambda mid in
  {| V_mid := mid;
     lambda_mid := l;
     bracket := if Qle_bool (fst l) 0
                then {| V_lo := mid; V_hi := V_hi b |}
                else {| V_lo := V_lo b; V_hi := mid |} |}.

(** Modelled from the spec: section 4.4, step 5, the two tolerance tests. *)
Definition tolerance_met (tol : Real) (it : Iterate) : bool :=
  Qltb (Qabs (fst (lambda_mid it))) tol
  || Qltb (V_hi (bracket it) - V_lo (bracket it)) (tol * V_hi (bracket it)).

(** Modelled from the spec: section 4.4, the refinement loop with its
    iteration cap; the result lists the iterates in the order they were
    computed. *)
Fixpoint bisection (tol : Real) (max_bisection_iters : nat) (b : Bracket)
  : list Iterate :=
  match max_bisection_iters with
  | O => []
  | S n =>
      let it := refine b in
      if tolerance_met tol it then [it] else it :: bisection tol n (bracket it)
  end.

(** The bracket invariant of section 4.4: the tracked real part is not
    positive at the low end and positive at the high end. *)
Definition bracket_invariant (b : Bracket) : Prop :=
  re_lambda (V_lo b) <= 0 /\ 0 < re_lambda (V_hi b).

Definition root_of (it : Iterate) : FlutterRootBase :=
  {| V := V_mid it; root := lambda_mid it; V_sens := 0 |}.

(** Modelled from the spec: section 4.4, the refiner returns
    [(converged, FlutterRoot)]; an exhausted budget still returns the last
    estimate, flagged as not converged. *)
Definition bisection_search (tol : Real) (max_bisection_iters : nat)
    (b : Bracket) : bool * option FlutterRootBase :=
  match last (bisection tol max_bisection_iters b) with
  | Some it => (tolerance_met tol it, Some (root_of it))
  | None => (false, None)
  end.

(** Modelled from the spec: section 6, [find_critical_root]: the coarse
    sweep, then the refinement of the first bracket. *)
Definition find_critical_root
    (lo hi : Real) (n_divisions : nat)
    (tol : Real) (max_bisection_iters : nat) : SearchResult :=
  let pts := sweep lo hi n_divisions in
  match first_crossing pts with
  | None =>
      {| found := false; critical := None;
         indication := NoCrossingFound; evaluated := pts |}
  | Some b =>
      let its := bisection tol max_bisection_iters b in
      let '(conv, r) := bisection_search tol max_bisection_iters b in
      {| found := conv; critical := r;
         indication := if conv then Converged else NotConverged;
         evaluated := pts ++ map (fun it => (V_mid it, lambda_mid it)) its |}
  end.

End Search.

(** ** Vocabulary of the convergence property (section 8) *)

Fixpoint pow2 (k : nat) : Real :=
  match k with
  | O => 1
  | S k' => 2 * pow2 k'
  end.

Definition increasing (f : Real -> Real) : Prop :=
  forall x y, x < y -> f x < f y.

Definition continuous (f : Real -> Real) : Prop :=
  forall x eps, 0 < eps ->
    exists delta, 0 < delta /\
      forall y, Qabs (y - x) < delta -> Qabs (f y - f x) < eps.

Definition crosses_zero_once (f : Real -> Real) (lo hi : Real) : Prop :=
  exists v, lo <= v <= hi /\ f v == 0 /\
    forall w, lo <= w <= hi -> f w == 0 -> w == v.

(** ** The solver object *)

(** Modelled from the spec: the state of [MAST::TimeDomainFlutterSolver]
    that the calls of the driver set (sections 3 and 6): the output file,
    the attached assembly, the search range and basis, and the RootHistory. *)
Record TimeDomainFlutterSolver := {
  output_file : option string;
  assembly_attached : bool;
  velocity_param : option ptr;
  V_range : Real * Real;
  n_divisions : nat;
  basis_vectors : list (list Real);
  history : list FlutterRootBase   (* the roots it owns, in evaluation order *)
}.

Definition set_history (h : list FlutterRootBase) (fs : TimeDomainFlutterSolver)
  : TimeDomainFlutterSolver :=
  {| output_file := output_file fs;
     assembly_attached := assembly_attached fs;
     velocity_param := velocity_param fs;
     V_range := V_range fs;
     n_divisions := n_divisions fs;
     basis_vectors := basis_vectors fs;
     history := h |}.

Definition set_assembly_attached (a : bool) (fs : TimeDomainFlutterSolver)
  : TimeDomainFlutterSolver :=
  {| output_file := output_file fs;
     assembly_attached := a;
     velocity_param := velocity_param fs;
     V_range := V_range fs;
     n_divisions := n_divisions fs;
     basis_vectors := basis_vectors fs;
     history := history fs |}.

(** A solver as its constructor leaves it. *)
Definition new_solver : TimeDomainFlutterSolver :=
  {| output_file := None;
     assembly_attached := false;
     velocity_param := None;
     V_range := (0, 0);
     n_divisions := O;
     basis_vectors := [];
     history := [] |}.

(** Modelled from the spec: section 6, [clear()] releases the RootHistory and
    with it every root the solver handed out. *)
Definition clear (fs : TimeDomainFlutterSolver) : TimeDomainFlutterSolver :=
  set_history [] fs.

(** Modelled from the spec: the calls that name the output file and attach
    or detach the assembly only record that they were made. *)
Definition set_output_file (nm : string) (fs : TimeDomainFlutterSolver)
  : TimeDomainFlutterSolver :=
  {| output_file := Some nm;
     assembly_attached := assembly_attached fs;
     velocity_param := velocity_param fs;
     V_range := V_range fs;
     n_divisions := n_divisions fs;
     basis_vectors := basis_vectors fs;
     history := history fs |}.

Definition attach_assembly : TimeDomainFlutterSolver -> TimeDomainFlutterSolver :=
  set_assembly_attached true.

Definition clear_assembly_object : TimeDomainFlutterSolver -> TimeDomainFlutterSolver :=
  set_assembly_attached false.

(** Modelled from the spec: section 6, [initialize(V0, V_lo, V_hi,
    n_divisions, basis)] configures the search range and the basis. *)
Definition initialize (V0 : ptr) (lo hi : Real) (n_div : nat)
    (basis : list (list Real)) (fs : TimeDomainFlutterSolver)
  : TimeDomainFlutterSolver :=
  {| output_file := output_file fs;
     assembly_attached := assembly_attached fs;
     velocity_param := Some V0;
     V_range := (lo, hi);
     n_divisions := n_div;
     basis_vectors := basis;
     history := history fs |}.

Definition as_root (e : Real * Complex) : FlutterRootBase :=
  {| V := fst e; root := snd e; V_sens := 0 |}.

(** Modelled from the spec: [find_critical_root] as the method the driver
    calls.  The roots it evaluates are kept in the solver's history, and the
    critical root is returned as a pointer to the one the solver owns (the
    last one evaluated), or null. *)
Definition analyze_and_find_critical_root_without_tracking
    (lambda : Real -> Complex) (tol : Real) (max_bisection_iters : nat)
    (fs : TimeDomainFlutterSolver)
  : (bool * option ptr) * TimeDomainFlutterSolver :=
  let r := find_critical_root lambda (fst (V_range fs)) (snd (V_range fs))
             (n_divisions fs) tol max_bisection_iters in
  let h := map as_root (evaluated r) in
  ((found r,
    match critical r with
    | Some _ => Some (length h - 1)%nat
    | None => None
    end),
   set_history h fs).

(** Modelled from the spec: section 6, the diagnostic listing, sorted by
    velocity and then by real part. *)
Definition root_leb (a b : FlutterRootBase) : bool :=
  Qltb (V a) (V b)
  || (Qeq_bool (V a) (V b) && Qle_bool (fst (root a)) (fst (root b))).

Definition print_sorted_roots (fs : TimeDomainFlutterSolver)
  : list FlutterRootBase :=
  merge_sort (fun a b => Is_true (root_leb a b)) (history fs).

(** Modelled from the spec: section 4.5, the onset velocity sensitivity by
    implicit differentiation of [real(lambda(V, p)) = 0], from the two
    partial derivatives of the tracked real part. *)
Definition flutter_velocity_sensitivity (dre_dp dre_dV : Real) : Real :=
  - dre_dp / dre_dV.

Definition set_V_sens (x : Real) (r : FlutterRootBase) : FlutterRootBase :=
  {| V := V r; root := root r; V_sens := x |}.

(** Modelled from the spec: section 4.5, [calculate_sensitivity(root,
    parameter)] stores [dV/dp] on the root; it fails with [StaleRootError]
    when the root is not one the solver holds, or when the parameter is not
    one the attached discipline knows. *)
Definition calculate_sensitivity (dre_dp dre_dV : Real)
    (registered : gset ptr) (r : ptr) (p : ptr)
    (fs : TimeDomainFlutterSolver) : result TimeDomainFlutterSolver :=
  match history fs !! r with
  | None => Err StaleRootError
  | Some rt =>
      if decide (p ∈ registered)
      then Ok (set_history
                 (<[r := set_V_sens (flutter_velocity_sensitivity dre_dp dre_dV) rt]>
                    (history fs)) fs)
      else Err StaleRootError
  end.

End FlutterSolver.

(** * The analysis driver

    [MAST::BeamPistonTheoryFlutterAnalysis].  The mesh, the equation system
    and the ExodusII writer are libMesh objects the driver only passes on;
    what it prints or writes is kept as a log. *)

Module Analysis.

Import FlutterSolver.

(** Modelled from the spec: [MAST::Parameter] is declared in
    base/parameter.h, which is not among the sources; by section 3 it is a
    named mutable scalar. *)
Record Param := { name : string; value : Real }.

(** [MAST::ConstantFieldFunction(nm, param)] refers to its parameter. *)
Record ConstantFieldFunction := { f_name : string; f_param : ptr }.

Record DirichletBoundaryCondition := {
  bc_id : nat;
  constrained_vars : list nat
}.

Record Solid1DSectionElementPropertyCard := {
  y_vector : list Real;
  section_properties : list ConstantFieldFunction;
  material : list ConstantFieldFunction;   (* the material card's properties *)
  card_initialized : bool
}.

Record PistonTheoryBoundaryCondition := {
  order : nat;
  vel_vec : list Real;
  flow_properties : list ConstantFieldFunction
}.

(** [MAST::StructuralDiscipline]: what [init] configures, and the set of
    parameters registered for sensitivity analysis.

    Modelled from the spec: [add_parameter] and [remove_parameter] belong to
    base/physics_discipline_base.h, which is not among the sources; the
    registry is the set of the parameters added and not removed since. *)
Record StructuralDiscipline := {
  dirichlet_bc : list (nat * DirichletBoundaryCondition);
  subdomain_property : list (nat * Solid1DSectionElementPropertyCard);
  volume_load : list (nat * PistonTheoryBoundaryCondition);
  parameters : gset ptr
}.

Definition set_parameters (ps : gset ptr) (d : StructuralDiscipline)
  : StructuralDiscipline :=
  {| dirichlet_bc := dirichlet_bc d;
     subdomain_property := subdomain_property d;
     volume_load := volume_load d;
     parameters := ps |}.

Definition add_parameter (p : ptr) (d : StructuralDiscipline) : StructuralDiscipline :=
  set_parameters ({[p]} ∪ parameters d) d.

Definition remove_parameter (p : ptr) (d : StructuralDiscipline) : StructuralDiscipline :=
  set_parameters (parameters d ∖ {[p]}) d.

(** The settings of [_sys] made by [init]. *)
Record NonlinearSystem := {
  exchange_A_and_B : bool;
  n_requested_eigenvalues : nat
}.

(** The [MAST::Parameter*] members. *)
Record Members := {
  _thy : ptr; _thz : ptr; _rho : ptr; _E : ptr; _nu : ptr; _zero : ptr;
  _velocity : ptr; _mach : ptr; _rho_air : ptr; _gamma_air : ptr
}.

Inductive Output :=
| Text (line : string)                        (* a line on libMesh::out *)
| Number (x : Real)                           (* a number on libMesh::out *)
| Timestep (file : string) (step : nat)       (* ExodusII_IO::write_timestep *)
| SortedRoots (l : list FlutterRootBase)      (* print_sorted_roots *)
| FlutterMode (file : string).                (* plot_structural_flutter_solution *)

Record State := {
  _initialized : bool;
  _flutter_root : option ptr;           (* points into the solver's history *)
  store : gmap ptr Param;           (* the Parameter objects made with new *)
  _length : Real;
  members : Members;
  _params_for_sensitivity : list ptr;
  _discipline : StructuralDiscipline;
  _sys : NonlinearSystem;
  _flutter_solver : TimeDomainFlutterSolver;
  _basis : list (option (list Real));
  out : list Output
}.

Definition set_flutter_root (r : option ptr) (s : State) : State :=
  {| _initialized := _initialized s; _flutter_root := r; store := store s;
     _length := _length s; members := members s;
     _params_for_sensitivity := _params_for_sensitivity s;
     _discipline := _discipline s; _sys := _sys s;
     _flutter_solver := _flutter_solver s; _basis := _basis s; out := out s |}.

Definition set_store (st : gmap ptr Param) (s : State) : State :=
  {| _initialized := _initialized s; _flutter_root := _flutter_root s; store := st;
     _length := _length s; members := members s;
     _params_for_sensitivity := _params_for_sensitivity s;
     _discipline := _discipline s; _sys := _sys s;
     _flutter_solver := _flutter_solver s; _basis := _basis s; out := out s |}.

Definition set_discipline (d : StructuralDiscipline) (s : State) : State :=
  {| _initialized := _initialized s; _flutter_root := _flutter_root s;
     store := store s; _length := _length s; members := members s;
     _params_for_sensitivity := _params_for_sensitivity s;
     _discipline := d; _sys := _sys s;
     _flutter_solver := _flutter_solver s; _basis := _basis s; out := out s |}.

Definition set_flutter_solver (fs : TimeDomainFlutterSolver) (s : State) : State :=
  {| _initialized := _initialized s; _flutter_root := _flutter_root s;
     store := store s; _length := _length s; members := members s;
     _params_for_sensitivity := _params_for_sensitivity s;
     _discipline := _discipline s; _sys := _sys s;
     _flutter_solver := fs; _basis := _basis s; out := out s |}.

Definition set_basis (b : list (option (list Real))) (s : State) : State :=
  {| _initialized := _initialized s; _flutter_root := _flutter_root s;
     store := store s; _length := _length s; members := members s;
     _params_for_sensitivity := _params_for_sensitivity s;
     _discipline := _discipline s; _sys := _sys s;
     _flutter_solver := _flutter_solver s; _basis := b; out := out s |}.

Definition set_out (o : list Output) (s : State) : State :=
  {| _initialized := _initialized s; _flutter_root := _flutter_root s;
     store := store s; _length := _length s; members := members s;
     _params_for_sensitivity := _params_for_sensitivity s;
     _discipline := _discipline s; _sys := _sys s;
     _flutter_solver := _flutter_solver s; _basis := _basis s; out := o |}.

(** ** Member functions run on the object and may abort *)

Definition M (A : Type) : Type := State -> result (A * State).

#[global] Instance M_ret : MRet M := fun A x s => Ok (x, s).

#[global] Instance M_bind : MBind M := fun A B f m s =>
  match m s with
  | Ok (x, s') => f x s'
  | Err e => Err e
  end.

Definition get_state : M State := fun s => Ok (s, s).

Definition modify (f : State -> State) : M unit := fun s => Ok (tt, f s).

Definition fail {A} (e : Error) : M A := fun _ => Err e.

Definition libmesh_assert (condition : string) (c : bool) : M unit :=
  if c then mret tt else fail (AssertionFailure condition).

Definition print (o : list Output) : M unit :=
  modify (fun s => set_out (out s ++ o) s).

Definition on_solver (f : TimeDomainFlutterSolver -> TimeDomainFlutterSolver) : M unit :=
  modify (fun s => set_flutter_solver (f (_flutter_solver s)) s).

Definition on_discipline (f : StructuralDiscipline -> StructuralDiscipline) : M unit :=
  modify (fun s => set_discipline (f (_discipline s)) s).

Fixpoint for_each {A} (l : list A) (body : A -> M unit) : M unit :=
  match l with
  | [] => mret tt
  | x :: l' => body x;; for_each l' body
  end.

(** [new MAST::Parameter(nm, v)]: a fresh object in the store. *)
Definition new_parameter (nm : string) (v : Real) (st : gmap ptr Param)
  : ptr * gmap ptr Param :=
  let p := fresh (dom st) in
  (p, <[p := {| name := nm; value := v |}]> st).

(** Assignment to the value of the parameter [p] points to. *)
Definition assign (p : ptr) (v : Real) : M unit := fun s =>
  match store s !! p with
  | Some x => Ok (tt, set_store (<[p := {| name := name x; value := v |}]> (store s)) s)
  | None => Err InvalidPointer
  end.

(** The name of the parameter [p] points to. *)
Definition name_of (st : gmap ptr Param) (p : ptr) : option string :=
  name <$> st !! p.

(** The object as the constructor leaves it. *)
Definition constructed : State :=
  {| _initialized := false;
     _flutter_root := None;
     store := ∅;
     _length := 0;
     members := {| _thy := O; _thz := O; _rho := O; _E := O; _nu := O; _zero := O;
                   _velocity := O; _mach := O; _rho_air := O; _gamma_air := O |};
     _params_for_sensitivity := [];
     _discipline := {| dirichlet_bc := []; subdomain_property := [];
                       volume_load := []; parameters := ∅ |};
     _sys := {| exchange_A_and_B := false; n_requested_eigenvalues := O |};
     _flutter_solver := new_solver;
     _basis := [];
     out := [] |}.

(** ** init *)

Definition init (etype : nat) (if_nonlin : bool) : M unit := fun s =>
  if _initialized s then Err (AssertionFailure "!_initialized") else
  (* the boundary conditions *)
  let constrained := [0; 1; 2; 3]%nat in      (* u, v, w, tx *)
  let dirichlet_left := {| bc_id := 0; constrained_vars := constrained |} in
  let dirichlet_right := {| bc_id := 1; constrained_vars := constrained |} in
  (* the parameters *)
  let '(thy, st) := new_parameter "thy" 0.06%Q (store s) in
  let '(thz, st) := new_parameter "thz" 1.00%Q st in
  let '(rho, st) := new_parameter "rho" 2.8e3%Q st in
  let '(E, st) := new_parameter "E" 72e9%Q st in
  let '(nu, st) := new_parameter "nu" 0.33%Q st in
  let '(zero, st) := new_parameter "zero" 0%Q st in
  let '(velocity, st) := new_parameter "V" 0%Q st in
  let '(mach, st) := new_parameter "mach" 3%Q st in
  let '(rho_air, st) := new_parameter "rho" 1.05%Q st in
  let '(gamma_air, st) := new_parameter "gamma" 1.4%Q st in
  (* the field functions *)
  let thy_f := {| f_name := "hy"; f_param := thy |} in
  let thz_f := {| f_name := "hz"; f_param := thz |} in
  let rho_f := {| f_name := "rho"; f_param := rho |} in
  let E_f := {| f_name := "E"; f_param := E |} in
  let nu_f := {| f_name := "nu"; f_param := nu |} in
  let hyoff_f := {| f_name := "hy_off"; f_param := zero |} in
  let hzoff_f := {| f_name := "hz_off"; f_param := zero |} in
  let velocity_f := {| f_name := "V"; f_param := velocity |} in
  let mach_f := {| f_name := "mach"; f_param := mach |} in
  let rho_air_f := {| f_name := "rho"; f_param := rho_air |} in
  let gamma_air_f := {| f_name := "gamma"; f_param := gamma_air |} in
  (* the property cards *)
  let p_card :=
    {| y_vector := [0; 1; 0]%Q;
       section_properties := [thy_f; thz_f; hyoff_f; hzoff_f];
       material := [rho_f; E_f; nu_f];
       card_initialized := true |} in
  (* the piston theory boundary condition: first order, flow along x *)
  let piston_bc :=
    {| order := 1;
       vel_vec := [1; 0; 0]%Q;
       flow_properties := [velocity_f; mach_f; rho_air_f; gamma_air_f] |} in
  Ok (tt,
      {| _initialized := true;
         _flutter_root := _flutter_root s;
         store := st;
         _length := 10%Q;
         members := {| _thy := thy; _thz := thz; _rho := rho; _E := E; _nu := nu;
                       _zero := zero; _velocity := velocity; _mach := mach;
                       _rho_air := rho_air; _gamma_air := gamma_air |};
         _params_for_sensitivity :=
           _params_for_sensitivity s ++ [E; nu; thy; thz];
         _discipline :=
           {| dirichlet_bc := [(0, dirichlet_left); (1, dirichlet_right)]%nat;
              subdomain_property := [(0%nat, p_card)];
              volume_load := [(0%nat, piston_bc)];
              parameters := ∅ |};
         _sys := {| exchange_A_and_B := true; n_requested_eigenvalues := 3 |};
         _flutter_solver := new_solver;
         _basis := _basis s;
         out := out s |}).

(** ** get_parameter *)

(** The search loop: it does not stop at the first match. *)
Definition lookup_by_name (nm : string) (st : gmap ptr Param)
    (params : list ptr) : option (option ptr * bool) :=
  foldl (fun acc it =>
           '(rval, found) ← acc;
           n ← name_of st it;
           Some (if String.eqb nm n then (Some it, true) else (rval, found)))
        (Some (None, false)) params.

(** The message printed when the name is not found. *)
Definition valid_names (st : gmap ptr Param) (params : list ptr) : list Output :=
  omap (fun it => (fun n => Text ("   " ++ n)) <$> name_of st it) params.

Definition not_found_message (nm : string) (st : gmap ptr Param)
    (params : list ptr) : list Output :=
  [Text ""; Text ("Parameter not found by name: " ++ nm);
   Text "Valid names are: "]
  ++ valid_names st params ++ [Text ""].

Definition get_parameter (nm : string) : M (option ptr) :=
  s ← get_state;
  match lookup_by_name nm (store s) (_params_for_sensitivity s) with
  | None => fail InvalidPointer
  | Some (rval, found) =>
      (if found then mret tt
       else print (not_found_message nm (store s) (_params_for_sensitivity s)));;
      mret rval
  end.

Section Collaborators.

(** The processor id of [__init->comm()]. *)
Variable rank : nat.

(** The structural modal eigen-solve: the converged eigenpairs, for the
    current parameter values and discipline. *)
Variable eigenproblem_solve :
  gmap ptr Param -> StructuralDiscipline -> list (Complex * list Real).

(** The tracked eigenvalue of the reduced aeroelastic problem at a velocity,
    on a basis. *)
Variable tracked_eigenvalue :
  gmap ptr Param -> StructuralDiscipline -> list (list Real) -> Real -> Complex.

(** The derivative of the critical eigenvalue with respect to a parameter
    registered with the discipline (section 4.5). *)
Variable eigenvalue_sensitivity :
  gmap ptr Param -> StructuralDiscipline -> list (list Real) ->
  FlutterRootBase -> ptr -> Complex.

(** *** solve *)

(** The start of [solve] (lines 296 to 304): the data of the previous
    solution are dropped. *)
Definition solve_clear : M unit :=
  s ← get_state;
  libmesh_assert "_initialized" (_initialized s);;
  modify (set_flutter_root None);;
  on_solver clear;;
  if (rank =? 0)%nat then on_solver (set_output_file "flutter_output.txt")
  else mret tt.

(** The body of the loop over the converged modes (lines 337 to 363).  The
    copy of the mode into [_sys->solution] that precedes the time step
    (line 356) is left out: the solution vector of the system is not part of
    the state here, and nothing below speaks about it. *)
Definition store_mode (eigs : list (Complex * list Real))
    (if_write_output : bool) (i : nat) : M unit :=
  match eigs !! i with
  | None => fail InvalidPointer
  | Some (lam, vec) =>
      modify (fun s => set_basis (<[i := Some vec]> (_basis s)) s);;
      print [Number (fst lam)];;
      if if_write_output then print [Timestep "modes.exo" (i + 1)] else mret tt
  end.

(** The structural modal analysis, at zero velocity (lines 307 to 363). *)
Definition solve_modal (if_write_output : bool) : M unit :=
  s ← get_state;
  assign (_velocity (members s)) 0%Q;;
  s ← get_state;
  let eigs := eigenproblem_solve (store s) (_discipline s) in
  let nconv := (length eigs `min` n_requested_eigenvalues (_sys s))%nat in
  (if (0 <? length (_basis s))%nat
   then libmesh_assert "_basis.size() == nconv" (length (_basis s) =? nconv)%nat
   else modify (set_basis (replicate nconv None)));;
  for_each (seq 0 nconv) (store_mode eigs if_write_output).

(** The vectors behind the basis pointers. *)
Definition basis_of (b : list (option (list Real))) : option (list (list Real)) :=
  mapM id b.

(** The flutter search on the basis (lines 365 to 396). *)
Definition solve_flutter (if_write_output : bool) (tol : Real)
    (max_bisection_iters : nat) : M Real :=
  s ← get_state;
  match basis_of (_basis s) with
  | None => fail InvalidPointer
  | Some basis =>
      on_solver attach_assembly;;
      on_solver (initialize (_velocity (members s)) 1e3%Q 1200%Q 10 basis);;
      s ← get_state;
      let '(sol, fs) :=
        analyze_and_find_critical_root_without_tracking
          (tracked_eigenvalue (store s) (_discipline s) basis)
          tol max_bisection_iters (_flutter_solver s) in
      modify (set_flutter_solver fs);;
      print [SortedRoots (print_sorted_roots fs)];;
      on_solver clear_assembly_object;;
      (* make sure solution was found *)
      libmesh_assert "sol.first" (fst sol);;
      modify (set_flutter_root (snd sol));;
      (if fst sol && if_write_output
       then print [FlutterMode "structural_flutter_mode.exo"] else mret tt);;
      s ← get_state;
      match _flutter_root s ≫= (fun r => history (_flutter_solver s) !! r) with
      | None => fail InvalidPointer
      | Some r => mret (V r)
      end
  end.

Definition solve (if_write_output : bool) (tol : Real)
    (max_bisection_iters : nat) : M Real :=
  solve_clear;;
  solve_modal if_write_output;;
  solve_flutter if_write_output tol max_bisection_iters.

(** The object after the first lines of [solve], when it is initialized. *)
Definition cleared (s : State) : State :=
  let fs := clear (_flutter_solver s) in
  set_flutter_solver
    (if (rank =? 0)%nat then set_output_file "flutter_output.txt" fs else fs)
    (set_flutter_root None s).

(** The store once the velocity parameter, holding [x], is set to zero. *)
Definition at_zero_velocity (s : State) (x : Param) : gmap ptr Param :=
  <[_velocity (members s) := {| name := name x; value := 0%Q |}]> (store s).

(** The basis after the loop over [nconv] converged modes. *)
Definition modes (eigs : list (Complex * list Real)) (nconv : nat)
  : list (option (list Real)) :=
  map (fun e => Some (snd e)) (take nconv eigs).

(** The solver after a search on [basis] that gave the result [r]. *)
Definition searched (s : State) (basis : list (list Real)) (r : SearchResult)
  : TimeDomainFlutterSolver :=
  clear_assembly_object
    (set_history (map as_root (evaluated r))
       (initialize (_velocity (members s)) 1e3%Q 1200%Q 10 basis
          (attach_assembly (_flutter_solver s)))).

(** *** sensitivity_solve *)

Definition sensitivity_solve (p : ptr) : M Real :=
  s ← get_state;
  libmesh_assert "_initialized" (_initialized s);;
  (* make sure that a solution is available for sensitivity *)
  libmesh_assert "_flutter_root" (non_null (_flutter_root s));;
  on_discipline (add_parameter (_velocity (members s)));;
  on_discipline (add_parameter p);;
  on_solver attach_assembly;;
  s ← get_state;
  match _flutter_root s ≫= (fun r => (r,.) <$> history (_flutter_solver s) !! r) with
  | None => fail InvalidPointer
  | Some (r, rt) =>
      let fs := _flutter_solver s in
      let dre q :=
        fst (eigenvalue_sensitivity (store s) (_discipline s)
               (basis_vectors fs) rt q) in
      match calculate_sensitivity (dre p) (dre (_velocity (members s)))
              (parameters (_discipline s)) r p fs with
      | Err e => fail e
      | Ok fs' =>
          modify (set_flutter_solver fs');;
          on_solver clear_assembly_object;;
          on_discipline (remove_parameter p);;
          on_discipline (remove_parameter (_velocity (members s)));;
          s ← get_state;
          match history (_flutter_solver s) !! r with
          | None => fail InvalidPointer
          | Some rt => mret (V_sens rt)
          end
      end
  end.

(** ** The states the driver can be in *)

(** The ten parameters [init] creates, in the order of their creation. *)
Definition created (m : Members) : list ptr :=
  [_thy m; _thz m; _rho m; _E m; _nu m; _zero m;
   _velocity m; _mach m; _rho_air m; _gamma_air m].

Definition well_formed (s : State) : Prop :=
  _initialized s = true /\
  parameters (_discipline s) = ∅ /\
  _params_for_sensitivity s =
    [_E (members s); _nu (members s); _thy (members s); _thz (members s)] /\
  NoDup (created (members s)) /\
  map (name_of (store s)) (created (members s)) =
    map Some ["thy"; "thz"; "rho"; "E"; "nu"; "zero"; "V"; "mach"; "rho"; "gamma"] /\
  forall r, _flutter_root s = Some r ->
            is_Some (history (_flutter_solver s) !! r).

Inductive reachable : State -> Prop :=
| reachable_init etype if_nonlin s :
    init etype if_nonlin constructed = Ok (tt, s) -> reachable s
| reachable_get_parameter s nm r s' :
    reachable s -> get_parameter nm s = Ok (r, s') -> reachable s'
| reachable_solve s w tol n v s' :
    reachable s -> solve w tol n s = Ok (v, s') -> reachable s'
| reachable_sensitivity_solve s p v s' :
    reachable s -> sensitivity_solve p s = Ok (v, s') -> reachable s'.

End Collaborators.

(** ** The destructor (lines 198 to 248)

    The cards, boundary conditions, field functions, discipline and solver
    are held by value here and end with the object.  What the driver
    allocates one by one and the embedding keeps as separate objects are the
    ten parameters and the basis vectors: [delete] on a pointer that holds
    no object has no defined result, except on a null pointer, where it
    does nothing. *)

Definition delete_parameter (p : ptr) : M unit := fun s =>
  match store s !! p with
  | Some _ => Ok (tt, set_store (delete p (store s)) s)
  | None => Err InvalidPointer
  end.

Definition destructor : M unit :=
  s ← get_state;
  if negb (_initialized s) then mret tt
  else
    for_each (created (members s)) delete_parameter;;
    (* delete the basis vectors *)
    modify (fun s => set_basis (map (fun _ => None) (_basis s)) s).

(** ** What [solve] prints and writes *)

(** The entries of the loop over the modes with the given indices: the real
    part of each eigenvalue and, when output is written, the time step of
    modes.exo. *)
Definition mode_log (eigs : list (Complex * list Real)) (if_write_output : bool)
    (indices : list nat) : list Output :=
  flat_map (fun i =>
              match eigs !! i with
              | Some (lam, _) =>
                  Number (fst lam)
                  :: (if if_write_output then [Timestep "modes.exo" (i + 1)] else [])
              | None => []
              end) indices.

End Analysis.

(** * A synthetic problem

    Collaborators small enough to run: three structural modes whose
    eigenvalues grow with the velocity parameter, and a tracked aeroelastic
    eigenvalue [V/100 - 11 + i] that crosses into the right half plane at
    [V = 1100], inside the range the driver searches. *)

Module Synthetic.

Import FlutterSolver Analysis.

Definition rank : nat := 0.

(** The value of the parameter named "V", found by scanning the store. *)
Definition velocity_in (st : gmap ptr Param) : Real :=
  match filter (fun x => name x.2 = "V") (map_to_list st) with
  | (_, x) :: _ => value x
  | [] => 0%Q
  end.

Definition eigenproblem_solve (st : gmap ptr Param) (d : StructuralDiscipline)
  : list (Complex * list Real) :=
  let v := velocity_in st in
  [ ((1 + v, 0), [1; 0; 0]); ((4 + v, 0), [0; 1; 0]);
    ((9 + v, 0), [0; 0; 1]); ((16 + v, 0), [1; 1; 1]) ]%Q.

Definition crossing_at_1100 (v : Real) : Complex := ((1 # 100) * v - 11, 1)%Q.

(** A tracked eigenvalue [1000 V - 17 + i] that crosses at [V = 0.017], for
    a search at velocities below one. *)
Definition crossing_below_one (v : Real) : Complex := (1000 * v - 17, 1)%Q.

Definition tracked_eigenvalue (st : gmap ptr Param) (d : StructuralDiscipline)
    (basis : list (list Real)) (v : Real) : Complex :=
  crossing_at_1100 v.

(** A mode that stays damped over the whole range. *)
Definition damped_eigenvalue (st : gmap ptr Param) (d : StructuralDiscipline)
    (basis : list (list Real)) (v : Real) : Complex :=
  (-1, 1)%Q.

Definition eigenvalue_sensitivity (st : gmap ptr Param) (d : StructuralDiscipline)
    (basis : list (list Real)) (r : FlutterRootBase) (p : ptr) : Complex :=
  if decide (name_of st p = Some "V") then (1 # 100, 0)%Q else (3, 0)%Q.

Abbreviation solve :=
  (Analysis.solve rank eigenproblem_solve tracked_eigenvalue).

Abbreviation sensitivity_solve :=
  (Analysis.sensitivity_solve eigenvalue_sensitivity).

(** The state after [init]. *)
Definition initial_state : State :=
  match init 0 false constructed with
  | Ok (_, s) => s
  | Err _ => constructed
  end.

(** The velocity returned by a first [solve], with tolerance 1/1000 and at
    most 18 bisection iterations, and the state it leaves. *)
Definition solved : Real * State :=
  match solve false (1 # 1000)%Q 18 initial_state with
  | Ok r => r
  | Err _ => (0%Q, initial_state)
  end.

Definition solved_state : State := snd solved.

(** The root [_flutter_root] points to after that [solve]. *)
Definition critical_root : FlutterRootBase :=
  default {| V := 0; root := (0, 0)%Q; V_sens := 0 |}
    (_flutter_root solved_state ≫=
       fun r => history (_flutter_solver solved_state) !! r).

(** The value returned by [sensitivity_solve] for the parameter at [p] after
    that [solve], and the state it leaves. *)
Definition sensitivity (p : ptr) : Real * State :=
  match sensitivity_solve p solved_state with
  | Ok r => r
  | Err _ => (0%Q, solved_state)
  end.

(** The state after that [solve] when a caller has registered the Poisson
    ratio with the discipline. *)
Definition registered_state : State :=
  set_discipline
    (add_parameter (_nu (members solved_state)) (_discipline solved_state))
    solved_state.

(** The value [sensitivity_solve] returns there for the Young modulus, and
    the state it leaves. *)
Definition registered_sensitivity : Real * State :=
  match sensitivity_solve (_E (members solved_state)) registered_state with
  | Ok r => r
  | Err _ => (0%Q, registered_state)
  end.

End Synthetic.

(** * Properties of the search *)

Section SearchProperties.

Import FlutterSolver.
Local Open Scope Q_scope.

Lemma Qltb_lt (x y : Q) : Qltb x y = true <-> x < y.
Proof.
  unfold Qltb. rewrite negb_true_iff. split.
  - intros H. apply Qnot_le_lt. intros Hle. apply Qle_bool_iff in Hle. congruence.
  - intros H. destruct (Qle_bool y x) eqn:E; [|done]. apply Qle_bool_iff in E. lra.
Qed.

Lemma Qltb_ge (x y : Q) : Qltb x y = false <-> y <= x.
Proof.
  unfold Qltb. rewrite negb_false_iff. apply Qle_bool_iff.
Qed.

Lemma Qle_bool_gt (x y : Q) : Qle_bool x y = false <-> y < x.
Proof.
  split.
  - intros H. apply Qnot_le_lt. intros Hle. apply Qle_bool_iff in Hle. congruence.
  - intros H. destruct (Qle_bool x y) eqn:E; [|done]. apply Qle_bool_iff in E. lra.
Qed.

Lemma midpoint_eq (a b : Q) : (a + b) / 2 == (1 # 2) * a + (1 # 2) * b.
Proof. field. Qed.

Lemma pow2_pos (k : nat) : 0 < pow2 k.
Proof.
  induction k as [|k IH]; [reflexivity|].
  change (0 < 2 * pow2 k). lra.
Qed.

(** ** The samples of the sweep *)

Lemma divisions_pos (n : nat) : (1 <= n)%nat -> 0 < inject_Z (Z.of_nat n).
Proof.
  intros Hn. change 0 with (inject_Z 0). rewrite <- Zlt_Qlt. lia.
Qed.

Lemma sample_0 (lo hi : Real) (n : nat) : sample lo hi n 0 == lo.
Proof. unfold sample. cbn. ring. Qed.

Lemma sample_S (lo hi : Real) (n k : nat) :
  sample lo hi n (S k) == sample lo hi n k + (hi - lo) / inject_Z (Z.of_nat n).
Proof.
  unfold sample. rewrite Nat2Z.inj_succ. unfold Z.succ.
  rewrite inject_Z_plus. ring.
Qed.

Lemma sample_last (lo hi : Real) (n : nat) :
  (1 <= n)%nat -> sample lo hi n n == hi.
Proof.
  intros Hn. pose proof (divisions_pos n Hn) as HN. unfold sample.
  field. lra.
Qed.

Lemma sample_bounds (lo hi : Real) (n k : nat) :
  lo <= hi -> (1 <= n)%nat -> (k <= n)%nat ->
  lo <= sample lo hi n k /\ sample lo hi n k <= hi.
Proof.
  intros Hle Hn Hk. pose proof (divisions_pos n Hn) as HN.
  set (t := inject_Z (Z.of_nat k) / inject_Z (Z.of_nat n)).
  assert (0 <= t) as Ht0.
  { apply Qle_shift_div_l; [done|]. rewrite Qmult_0_l.
    change 0 with (inject_Z 0). rewrite <- Zle_Qle. lia. }
  assert (t <= 1) as Ht1.
  { apply Qle_shift_div_r; [done|]. rewrite Qmult_1_l. rewrite <- Zle_Qle. lia. }
  assert (sample lo hi n k == lo + t * (hi - lo)) as ->.
  { unfold sample, t. field. lra. }
  assert (0 <= t * (hi - lo)) by (apply Qmult_le_0_compat; lra).
  assert (0 <= (1 - t) * (hi - lo)) by (apply Qmult_le_0_compat; lra).
  lra.
Qed.

Lemma samples_lookup (lo hi : Real) (n k : nat) :
  (k <= n)%nat -> samples lo hi n !! k = Some (sample lo hi n k).
Proof.
  intros Hk. unfold samples.
  change (map ?f ?l) with (f <$> l). rewrite list_lookup_fmap.
  rewrite lookup_seq_lt by lia. reflexivity.
Qed.

Lemma samples_length (lo hi : Real) (n : nat) : length (samples lo hi n) = S n.
Proof. unfold samples. by rewrite length_map, length_seq. Qed.

Variable lambda : Real -> Complex.

(** ** The bracket of the sweep *)

(** The bracket the sweep reports satisfies the invariant. *)
Lemma first_crossing_invariant (vs : list Real) (b : Bracket) :
  first_crossing (map (fun v => (v, lambda v)) vs) = Some b ->
  bracket_invariant lambda b.
Proof.
  induction vs as [|v0 [|v1 vs] IH]; [done..|].
  cbn [map first_crossing fst].
  destruct (Qle_bool _ 0 && Qltb 0 _) eqn:E.
  - intros [= <-]. apply andb_true_iff in E as [E0 E1].
    apply Qle_bool_iff in E0. apply Qltb_lt in E1.
    by split.
  - exact IH.
Qed.

(** Its ends are two consecutive samples. *)
Lemma first_crossing_consecutive (vs : list Real) (b : Bracket) :
  first_crossing (map (fun v => (v, lambda v)) vs) = Some b ->
  exists k, vs !! k = Some (V_lo b) /\ vs !! S k = Some (V_hi b).
Proof.
  induction vs as [|v0 [|v1 vs] IH]; [done..|].
  cbn [map first_crossing fst].
  destruct (Qle_bool _ 0 && Qltb 0 _).
  - intros [= <-]. by exists 0%nat.
  - intros H. destruct (IH H) as (k & Hk & HSk). by exists (S k).
Qed.

(** A sweep that starts at a non-positive real part and ends at a positive
    one reports a bracket. *)
Lemma first_crossing_exists (v : Real) (vs : list Real) (w : Real) :
  re_lambda lambda v <= 0 -> last (v :: vs) = Some w -> 0 < re_lambda lambda w ->
  is_Some (first_crossing (map (fun v => (v, lambda v)) (v :: vs))).
Proof.
  revert v. induction vs as [|v1 vs IH]; intros v Hv Hl Hw.
  - injection Hl as ->. lra.
  - cbn [map first_crossing fst].
    destruct (Qlt_le_dec 0 (fst (lambda v1))) as [Hpos|Hneg].
    + apply Qle_bool_iff in Hv. apply Qltb_lt in Hpos.
      unfold re_lambda in Hv. rewrite Hv, Hpos. by eexists.
    + apply Qltb_ge in Hneg as Hf. rewrite Hf, andb_false_r.
      apply (IH v1); [done | | done]. by rewrite last_cons_cons in Hl.
Qed.

(** A sweep that sees only negative real parts finds no bracket. *)
Lemma first_crossing_negative (pts : list (Real * Complex)) :
  Forall (fun p => fst (snd p) < 0) pts -> first_crossing pts = None.
Proof.
  induction pts as [|[v0 l0] [|[v1 l1] pts] IH]; [done..|].
  intros H. cbn [first_crossing].
  assert (Qltb 0 (fst l1) = false) as ->.
  { apply Qltb_ge. apply Forall_cons in H as [_ H].
    apply Forall_cons in H as [H _]. cbn in H. lra. }
  rewrite andb_false_r. apply IH. by apply Forall_cons in H as [_ H].
Qed.

Lemma find_critical_root_no_crossing (lo hi : Real) (n_div : nat)
    (tol : Real) (n : nat) :
  Forall (fun v => re_lambda lambda v < 0) (samples lo hi n_div) ->
  find_critical_root lambda lo hi n_div tol n =
  {| found := false; critical := None; indication := NoCrossingFound;
     evaluated := sweep lambda lo hi n_div |}.
Proof.
  intros H. unfold find_critical_root.
  rewrite first_crossing_negative; [done|].
  unfold sweep. apply Forall_map. eapply Forall_impl; [exact H|]. done.
Qed.

(** What the search returns once the sweep has reported a bracket. *)
Lemma find_critical_root_bracket (lo hi : Real) (n_div : nat) (tol : Real)
    (n : nat) (b : Bracket) :
  first_crossing (sweep lambda lo hi n_div) = Some b ->
  let its := bisection lambda tol n b in
  let r := find_critical_root lambda lo hi n_div tol n in
  evaluated r
  = sweep lambda lo hi n_div ++ map (fun it => (V_mid it, lambda_mid it)) its /\
  forall it, last its = Some it ->
    found r = tolerance_met tol it /\
    critical r = Some (root_of it) /\
    indication r = (if tolerance_met tol it then Converged else NotConverged).
Proof.
  intros Hb. cbv zeta. unfold find_critical_root, bisection_search. rewrite Hb.
  destruct (last (bisection lambda tol n b)) as [it'|]; cbn; (split; [done|]).
  - by intros it [= <-].
  - done.
Qed.

(** ** The bisection *)

Lemma bisection_S (tol : Real) (n : nat) (b : Bracket) :
  bisection lambda tol (S n) b =
  if tolerance_met tol (refine lambda b) then [refine lambda b]
  else refine lambda b :: bisection lambda tol n (bracket (refine lambda b)).
Proof. reflexivity. Qed.

(** Each iteration halves a proper bracket and keeps it inside the old one. *)
Lemma refine_bracket (b : Bracket) :
  V_lo b < V_hi b ->
  let b' := bracket (refine lambda b) in
  V_lo b <= V_lo b' /\ V_lo b' < V_hi b' /\ V_hi b' <= V_hi b /\
  V_hi b' - V_lo b' == (1 # 2) * (V_hi b - V_lo b).
Proof.
  intros H. unfold refine. cbn.
  pose proof (midpoint_eq (V_lo b) (V_hi b)) as E.
  destruct (Qle_bool _ 0); simpl; lra.
Qed.

(** The midpoint becomes one end of the new bracket. *)
Lemma refine_mid (b : Bracket) :
  lambda_mid (refine lambda b) = lambda (V_mid (refine lambda b)) /\
  (V_mid (refine lambda b) = V_lo (bracket (refine lambda b)) \/
   V_mid (refine lambda b) = V_hi (bracket (refine lambda b))).
Proof.
  unfold refine. cbn. split; [done|].
  destruct (Qle_bool _ 0); cbn; [by left | by right].
Qed.

Lemma tolerance_met_iff (tol : Real) (it : Iterate) :
  tolerance_met tol it = true <->
  Qabs (fst (lambda_mid it)) < tol \/
  V_hi (bracket it) - V_lo (bracket it) < tol * V_hi (bracket it).
Proof.
  unfold tolerance_met. rewrite orb_true_iff, !Qltb_lt. reflexivity.
Qed.

(** The loop never runs longer than its cap. *)
Lemma bisection_length_cap (tol : Real) (n : nat) (b : Bracket) :
  (length (bisection lambda tol n b) <= n)%nat.
Proof.
  revert b. induction n as [|n IH]; intros b; [simpl; lia|].
  rewrite bisection_S.
  destruct (tolerance_met tol (refine lambda b)); [simpl; lia|].
  specialize (IH (bracket (refine lambda b))). rewrite length_cons. lia.
Qed.

(** It goes on only from an iterate that fails both tolerance tests. *)
Lemma bisection_continues (tol : Real) (n : nat) (b : Bracket) (i : nat) (it : Iterate) :
  bisection lambda tol n b !! i = Some it ->
  (S i < length (bisection lambda tol n b))%nat ->
  tolerance_met tol it = false.
Proof.
  revert b i. induction n as [|n IH]; intros b i; [done|].
  rewrite bisection_S.
  destruct (tolerance_met tol (refine lambda b)) eqn:E.
  - simpl. lia.
  - rewrite length_cons. destruct i as [|i].
    + intros [= <-] _. exact E.
    + rewrite lookup_cons. intros Hi Hlen. apply (IH (bracket (refine lambda b)) i); [done | lia].
Qed.

(** It stops at an iterate that passes a test, or at the cap. *)
Lemma bisection_last (tol : Real) (n : nat) (b : Bracket) (it : Iterate) :
  last (bisection lambda tol n b) = Some it ->
  tolerance_met tol it = true \/ length (bisection lambda tol n b) = n.
Proof.
  revert b. induction n as [|n IH]; intros b; [done|].
  rewrite bisection_S.
  destruct (tolerance_met tol (refine lambda b)) eqn:E.
  - intros [= <-]. by left.
  - rewrite last_cons, length_cons.
    destruct (last (bisection lambda tol n (bracket (refine lambda b)))) as [it'|] eqn:L.
    + intros [= <-]. destruct (IH _ L) as [?|Hn]; [by left | right; lia].
    + intros [= <-]. right.
      apply last_None in L. rewrite L.
      destruct n; [done|]. rewrite bisection_S in L.
      destruct (tolerance_met tol (refine lambda (bracket (refine lambda b))));
        discriminate L.
Qed.

(** Replacing an end by the midpoint keeps the invariant. *)
Lemma refine_invariant (b : Bracket) :
  bracket_invariant lambda b -> bracket_invariant lambda (bracket (refine lambda b)).
Proof.
  intros [Hlo Hhi]. unfold refine, bracket_invariant, re_lambda. cbn.
  destruct (Qle_bool _ 0) eqn:E; cbn.
  - apply Qle_bool_iff in E. done.
  - apply Qle_bool_gt in E. done.
Qed.

(** C2.  Starting from a bracket with [real(lambda(V_lo)) <= 0] and
    [real(lambda(V_hi)) > 0], the bracket left by every bisection iteration
    has [real(lambda) <= 0] at its low end and [real(lambda) > 0] at its
    high end. *)
Theorem bracket_invariant_kept (tol : Real) (n : nat) (b : Bracket) :
  bracket_invariant lambda b ->
  Forall (fun it => bracket_invariant lambda (bracket it))
         (bisection lambda tol n b).
Proof.
  revert b. induction n as [|n IH]; intros b Hb; [constructor|].
  rewrite bisection_S. pose proof (refine_invariant b Hb) as Hb'.
  destruct (tolerance_met tol (refine lambda b)).
  - constructor; [done | constructor].
  - constructor; [done|]. by apply IH.
Qed.

(** The iterate of index [i]: the eigenvalue it holds is the one at its
    midpoint, the midpoint is an end of its bracket, and its bracket lies in
    the starting one, satisfies the invariant and has the starting width
    divided by [2^(i+1)]. *)
Lemma bisection_iterates (tol : Real) (n : nat) (b : Bracket) (i : nat)
    (it : Iterate) :
  V_lo b < V_hi b -> bracket_invariant lambda b ->
  bisection lambda tol n b !! i = Some it ->
  lambda_mid it = lambda (V_mid it) /\
  (V_mid it = V_lo (bracket it) \/ V_mid it = V_hi (bracket it)) /\
  bracket_invariant lambda (bracket it) /\
  V_lo b <= V_lo (bracket it) /\ V_lo (bracket it) < V_hi (bracket it) /\
  V_hi (bracket it) <= V_hi b /\
  (V_hi (bracket it) - V_lo (bracket it)) * pow2 (S i) == V_hi b - V_lo b.
Proof.
  revert b i. induction n as [|n IH]; intros b i Hlt Hb; [done|].
  rewrite bisection_S.
  destruct (refine_bracket b Hlt) as (H1 & H2 & H3 & H4).
  destruct (refine_mid b) as [Hl Hm].
  pose proof (refine_invariant b Hb) as Hb'.
  assert (forall it', refine lambda b = it' ->
            lambda_mid it' = lambda (V_mid it') /\
            (V_mid it' = V_lo (bracket it') \/ V_mid it' = V_hi (bracket it')) /\
            bracket_invariant lambda (bracket it') /\
            V_lo b <= V_lo (bracket it') /\ V_lo (bracket it') < V_hi (bracket it') /\
            V_hi (bracket it') <= V_hi b /\
            (V_hi (bracket it') - V_lo (bracket it')) * pow2 1 == V_hi b - V_lo b)
    as Hfirst.
  { intros it' <-. repeat split; try done; try apply Hb'.
    change (pow2 1) with (2 * 1). lra. }
  destruct (tolerance_met tol (refine lambda b)).
  - destruct i as [|i]; [|done]. intros [= E]. by apply Hfirst.
  - destruct i as [|i]; [intros [= E]; by apply Hfirst|].
    rewrite lookup_cons. intros Hi.
    destruct (IH (bracket (refine lambda b)) i H2 Hb' Hi)
      as (I1 & I2 & I3 & I4 & I5 & I6 & I7).
    repeat split; try done; try apply I3; try lra.
    change (pow2 (S (S i))) with (2 * pow2 (S i)).
    assert (forall w P, w * (2 * P) == 2 * (w * P)) as E by (intros; ring).
    rewrite E, I7. lra.
Qed.

End SearchProperties.

(** ** Convergence on an increasing real part *)

Section SearchConvergence.

Import FlutterSolver.
Local Open Scope Q_scope.

(** The tracked eigenvalue and the velocity [V0] at which its real part, an
    increasing and continuous function of the velocity, is zero. *)
Variable lambda : Real -> Complex.
Variable V0 : Real.
Hypothesis lambda_increasing : increasing (re_lambda lambda).
Hypothesis lambda_continuous : continuous (re_lambda lambda).
Hypothesis lambda_zero : re_lambda lambda V0 == 0.

(** A continuous function takes equal values at equal rationals. *)
Lemma continuous_Qeq (x y : Real) :
  x == y -> re_lambda lambda x == re_lambda lambda y.
Proof.
  intros Hxy.
  set (eps := Qabs (re_lambda lambda y - re_lambda lambda x)).
  destruct (Qlt_le_dec 0 eps) as [Hpos|Hle].
  - exfalso. destruct (lambda_continuous x eps Hpos) as (delta & Hd & Hc).
    assert (Qabs (y - x) < delta) as Hyx by (apply Qabs_case; intros; lra).
    apply Hc in Hyx. fold eps in Hyx. lra.
  - revert Hle. unfold eps. apply Qabs_case; intros; lra.
Qed.

Lemma not_above_crossing (v : Real) : v <= V0 -> re_lambda lambda v <= 0.
Proof.
  intros Hv. apply Qle_lt_or_eq in Hv as [Hlt|Heq].
  - apply lambda_increasing in Hlt. lra.
  - apply continuous_Qeq in Heq. lra.
Qed.

Lemma above_crossing (v : Real) : V0 < v -> 0 < re_lambda lambda v.
Proof. intros Hv. apply lambda_increasing in Hv. lra. Qed.

(** An increasing real part has no other zero. *)
Lemma increasing_crosses_once (lo hi : Real) :
  lo <= V0 -> V0 <= hi -> crosses_zero_once (re_lambda lambda) lo hi.
Proof.
  intros Hlo Hhi. exists V0. split; [done|]. split; [done|].
  intros w _ Hw. destruct (Q_dec w V0) as [[H|H]|H]; [| |done].
  - apply lambda_increasing in H. lra.
  - apply lambda_increasing in H. lra.
Qed.

(** A bracket that satisfies the invariant has the crossing inside. *)
Lemma bracket_locates (b : Bracket) :
  bracket_invariant lambda b -> V_lo b <= V0 /\ V0 < V_hi b.
Proof.
  intros [Hlo Hhi]. split.
  - destruct (Qlt_le_dec V0 (V_lo b)) as [H|H]; [|done].
    apply above_crossing in H. lra.
  - destruct (Qlt_le_dec V0 (V_hi b)) as [H|H]; [done|].
    apply not_above_crossing in H. lra.
Qed.

(** The sweep reports a bracket between two consecutive samples, around the
    crossing. *)
Lemma sweep_bracket (lo hi : Real) (n_div : nat) :
  lo <= V0 -> V0 < hi -> (1 <= n_div)%nat ->
  exists b,
    first_crossing (sweep lambda lo hi n_div) = Some b /\
    bracket_invariant lambda b /\
    lo <= V_lo b /\ V_hi b <= hi /\
    V_hi b - V_lo b == (hi - lo) / inject_Z (Z.of_nat n_div).
Proof.
  intros Hlo Hhi Hn.
  assert (is_Some (first_crossing (sweep lambda lo hi n_div))) as [b Hb].
  { assert (last (samples lo hi n_div) = Some (sample lo hi n_div n_div)) as Hlast.
    { rewrite last_lookup, samples_length. cbn [pred].
      by apply samples_lookup. }
    unfold sweep. revert Hlast. unfold samples. cbn [seq map]. intros Hlast.
    eapply first_crossing_exists; [|exact Hlast|].
    - apply not_above_crossing. rewrite sample_0. done.
    - apply above_crossing. rewrite sample_last by done. done. }
  exists b. split; [done|].
  pose proof (first_crossing_invariant lambda _ b Hb) as Hinv.
  destruct (first_crossing_consecutive lambda _ b Hb) as (k & Hk & HSk).
  assert (S k <= n_div)%nat as HkN.
  { apply lookup_lt_Some in HSk. rewrite samples_length in HSk. lia. }
  rewrite samples_lookup in Hk by lia. rewrite samples_lookup in HSk by lia.
  injection Hk as Hk. injection HSk as HSk.
  assert (lo <= hi) as Hle by lra.
  destruct (sample_bounds lo hi n_div k Hle Hn ltac:(lia)) as [B1 _].
  destruct (sample_bounds lo hi n_div (S k) Hle Hn HkN) as [_ B2].
  pose proof (sample_S lo hi n_div k) as Hstep.
  rewrite <- Hk, <- HSk. split; [done|]. split; [done|]. split; [done|].
  rewrite Hstep. ring.
Qed.

(** The interval test fires once the bracket is no wider than [tol], as long
    as the crossing velocity is at least 1. *)
Lemma interval_test_fires (tol : Real) (b : Bracket) :
  0 < tol -> 1 <= V0 -> V_lo b < V_hi b -> bracket_invariant lambda b ->
  V_hi b - V_lo b <= tol * 2 ->
  tolerance_met tol (refine lambda b) = true.
Proof.
  intros Htol Hone Hlt Hb Hw. apply tolerance_met_iff. right.
  destruct (refine_bracket lambda b Hlt) as (H1 & H2 & H3 & H4).
  destruct (bracket_locates _ (refine_invariant lambda b Hb)) as [_ Hhi].
  set (b' := bracket (refine lambda b)) in *.
  assert (0 < tol * (V_hi b' - 1)) by (apply Qmult_lt_0_compat; lra).
  lra.
Qed.

Lemma bisection_within (tol : Real) (k n : nat) (b : Bracket) :
  0 < tol -> 1 <= V0 -> V_lo b < V_hi b -> bracket_invariant lambda b ->
  V_hi b - V_lo b <= tol * pow2 k ->
  (1 <= k)%nat -> (k <= n)%nat ->
  (1 <= length (bisection lambda tol n b) <= k)%nat /\
  exists it, last (bisection lambda tol n b) = Some it /\
             tolerance_met tol it = true.
Proof.
  intros Htol Hone. revert k b.
  induction n as [|n IH]; intros k b Hlt Hb Hw Hk Hn; [lia|].
  rewrite bisection_S. destruct (tolerance_met tol (refine lambda b)) eqn:E.
  - simpl. split; [lia|]. eauto.
  - destruct k as [|[|k]]; [lia| |].
    + rewrite interval_test_fires in E; [done..|]. simpl in Hw. lra.
    + destruct (refine_bracket lambda b Hlt) as (H1 & H2 & H3 & H4).
      destruct (IH (S k) (bracket (refine lambda b))) as [Hlen (it & Hlast & Hmet)];
        [lra | by apply refine_invariant | | lia | lia |].
      * change (pow2 (S (S k))) with (2 * pow2 (S k)) in Hw. lra.
      * split; [rewrite length_cons; lia|]. exists it. split; [|done].
        rewrite last_cons, Hlast. done.
Qed.

(** C1 (amended).  Let the tracked real part be an increasing continuous
    function of the velocity with its zero at [V0], [V_lo <= V0 < V_hi], and
    let the sweep have at least one division.  Then [find_critical_root]
    finds a bracket between two consecutive samples around [V0] and bisects
    it: every iterate evaluates the midpoint, which becomes an end of the
    bracket, keeps [V0] inside the bracket and halves its width; the
    bisection runs at most [max_bisection_iters] iterations, goes on only
    from iterates that fail both tolerance tests, and stops at an iterate
    that passes one of them, [|real(lambda)| < tol] or
    [V_hi - V_lo < tol * V_hi], or at the cap; that iterate is returned,
    flagged converged exactly when it passes a test.  When [tol > 0],
    [V0 >= 1] and [V_hi - V_lo <= tol * 2^k] for some
    [1 <= k <= max_bisection_iters], it runs at least one and at most [k]
    iterations and returns a converged root at a velocity [V] in
    [[V_lo, V_hi]] with [|real(lambda(V))| < tol] or [|V - V0| < tol * V_hi]. *)
Theorem find_critical_root_converges (lo hi : Real) (n_div : nat) (tol : Real)
    (n : nat) :
  lo <= V0 -> V0 < hi -> (1 <= n_div)%nat ->
  let r := find_critical_root lambda lo hi n_div tol n in
  exists b,
    first_crossing (sweep lambda lo hi n_div) = Some b /\
    lo <= V_lo b /\ V_lo b <= V0 /\ V0 < V_hi b /\ V_hi b <= hi /\
    V_hi b - V_lo b == (hi - lo) / inject_Z (Z.of_nat n_div) /\
    let its := bisection lambda tol n b in
    evaluated r
    = sweep lambda lo hi n_div ++ map (fun it => (V_mid it, lambda_mid it)) its /\
    (length its <= n)%nat /\
    (forall i it, its !! i = Some it ->
       lambda_mid it = lambda (V_mid it) /\
       (V_mid it = V_lo (bracket it) \/ V_mid it = V_hi (bracket it)) /\
       V_lo (bracket it) <= V0 /\ V0 < V_hi (bracket it) /\
       (V_hi (bracket it) - V_lo (bracket it)) * pow2 (S i) == V_hi b - V_lo b /\
       ((S i < length its)%nat -> tolerance_met tol it = false)) /\
    (forall it, last its = Some it ->
       (tolerance_met tol it = true \/ length its = n) /\
       found r = tolerance_met tol it /\
       critical r = Some (root_of it) /\
       indication r = (if tolerance_met tol it then Converged else NotConverged)) /\
    (forall it, tolerance_met tol it = true <->
       Qabs (fst (lambda_mid it)) < tol \/
       V_hi (bracket it) - V_lo (bracket it) < tol * V_hi (bracket it)) /\
    (forall k,
       0 < tol -> 1 <= V0 -> hi - lo <= tol * pow2 k ->
       (1 <= k)%nat -> (k <= n)%nat ->
       (1 <= length its <= k)%nat /\
       exists rt,
         found r = true /\ indication r = Converged /\ critical r = Some rt /\
         root rt = lambda (V rt) /\ lo <= V rt /\ V rt <= hi /\
         (Qabs (re_lambda lambda (V rt)) < tol \/ Qabs (V rt - V0) < tol * hi)).
Proof.
  intros Hlo Hhi Hn. cbv zeta.
  destruct (sweep_bracket lo hi n_div Hlo Hhi Hn) as (b & Hb & Hinv & B1 & B2 & Hw).
  destruct (bracket_locates b Hinv) as [L1 L2].
  assert (V_lo b < V_hi b) as Hlt by lra.
  destruct (find_critical_root_bracket lambda lo hi n_div tol n b Hb) as [Hev Hret].
  cbv zeta in Hret.
  exists b. do 6 (split; [done|]). split; [exact Hev|].
  split; [apply bisection_length_cap|]. split; [|split; [|split]].
  - intros i it Hi.
    destruct (bisection_iterates lambda tol n b i it Hlt Hinv Hi)
      as (I1 & I2 & I3 & _ & _ & _ & I7).
    destruct (bracket_locates _ I3) as [I4 I5].
    do 5 (split; [done|]). intros Hlen. by apply (bisection_continues lambda tol n b i).
  - intros it Hlast. split; [by apply bisection_last|]. by apply Hret.
  - intros it. apply tolerance_met_iff.
  - intros k Htol Hone Hk Hk1 Hkn.
    pose proof (divisions_pos n_div Hn) as HN.
    assert (V_hi b - V_lo b <= tol * pow2 k) as Hwk.
    { rewrite Hw. apply Qle_shift_div_r; [done|].
      assert (1 <= inject_Z (Z.of_nat n_div)) as HN1.
      { change 1 with (inject_Z 1). rewrite <- Zle_Qle. lia. }
      pose proof (pow2_pos k) as Hp.
      assert (0 <= tol * pow2 k * (inject_Z (Z.of_nat n_div) - 1)) as Hm.
      { apply Qmult_le_0_compat; [|lra]. apply Qlt_le_weak.
        by apply Qmult_lt_0_compat. }
      lra. }
    destruct (bisection_within tol k n b Htol Hone Hlt Hinv Hwk Hk1 Hkn)
      as [Hlen (it & Hlast & Hmet)].
    split; [exact Hlen|].
    destruct (Hret it Hlast) as (Hf & Hc & Hi). rewrite Hmet in Hf, Hi.
    pose proof Hlast as Hlook. rewrite last_lookup in Hlook.
    destruct (bisection_iterates lambda tol n b _ it Hlt Hinv Hlook)
      as (I1 & I2 & I3 & I4 & I5 & I6 & _).
    destruct (bracket_locates _ I3) as [I7 I8].
    exists (root_of it). cbn [root_of V root].
    split; [done|]. split; [done|]. split; [done|]. split; [done|].
    split; [destruct I2 as [-> | ->]; lra|].
    split; [destruct I2 as [-> | ->]; lra|].
    apply tolerance_met_iff in Hmet as [Hre|Hint].
    + left. unfold re_lambda. by rewrite <- I1.
    + right.
      assert (0 <= tol * (hi - V_hi (bracket it))) as Hm
        by (apply Qmult_le_0_compat; lra).
      destruct I2 as [-> | ->]; apply Qabs_case; intros; lra.
Qed.

End SearchConvergence.

Section SearchExamples.

Import FlutterSolver.
Local Open Scope Q_scope.

Lemma crossing_at_1100_increasing :
  increasing (re_lambda Synthetic.crossing_at_1100).
Proof.
  intros x y Hxy. cbv [re_lambda Synthetic.crossing_at_1100 fst]. lra.
Qed.

Lemma crossing_at_1100_continuous :
  continuous (re_lambda Synthetic.crossing_at_1100).
Proof.
  intros x eps Heps. exists (100 * eps). split; [lra|].
  intros y Hy. cbv [re_lambda Synthetic.crossing_at_1100 fst].
  apply Qabs_Qlt_condition in Hy. apply Qabs_Qlt_condition. lra.
Qed.

Lemma crossing_at_1100_once (lo hi : Real) :
  lo <= 1100 -> 1100 <= hi ->
  crosses_zero_once (re_lambda Synthetic.crossing_at_1100) lo hi.
Proof.
  intros Hlo Hhi. exists 1100. cbv [re_lambda Synthetic.crossing_at_1100 fst].
  repeat split; try lra. intros w _ Hw. lra.
Qed.

Lemma crossing_below_one_increasing :
  increasing (re_lambda Synthetic.crossing_below_one).
Proof.
  intros x y Hxy. cbv [re_lambda Synthetic.crossing_below_one fst]. lra.
Qed.

Lemma crossing_below_one_continuous :
  continuous (re_lambda Synthetic.crossing_below_one).
Proof.
  intros x eps Heps. exists ((1 # 1000) * eps). split; [lra|].
  intros y Hy. cbv [re_lambda Synthetic.crossing_below_one fst].
  apply Qabs_Qlt_condition in Hy. apply Qabs_Qlt_condition. lra.
Qed.

Lemma crossing_below_one_once :
  crosses_zero_once (re_lambda Synthetic.crossing_below_one) (1 # 100) (3 # 100).
Proof.
  exists (17 # 1000). cbv [re_lambda Synthetic.crossing_below_one fst].
  repeat split; try lra. intros w _ Hw. lra.
Qed.

Lemma find_critical_root_converges_witness :
  let r := find_critical_root Synthetic.crossing_at_1100 1000 1200 10 (1 # 1000) 18 in
  exists rt,
    found r = true /\ critical r = Some rt /\ 1000 <= V rt /\ V rt <= 1200 /\
    (Qabs (re_lambda Synthetic.crossing_at_1100 (V rt)) < 1 # 1000 \/
     Qabs (V rt - 1100) < (1 # 1000) * 1200).
Proof.
  cbv zeta.
  destruct (find_critical_root_converges Synthetic.crossing_at_1100 1100
              crossing_at_1100_increasing crossing_at_1100_continuous
              ltac:(reflexivity) 1000 1200 10 (1 # 1000) 18)
    as (b & _ & _ & _ & _ & _ & _ & _ & _ & _ & _ & _ & Hk);
    [by vm_compute | by vm_compute | lia |].
  destruct (Hk 18%nat) as (_ & rt & Hf & _ & Hc & _ & H1 & H2 & H3);
    [by vm_compute | by vm_compute | by vm_compute | lia | lia |].
  exists rt. split; [exact Hf|]. split; [exact Hc|]. split; [exact H1|].
  split; [exact H2 | exact H3].
Defined.

(** C1 (as stated) fails in each of these searches for the zero of an
    increasing continuous real part.

    - The real part [V/100 - 11] has its one zero in [[1000, 1200]] at 1100
      and the cap 18 exceeds [log2((V_hi - V_lo)/tol)]; the search stops as
      converged, through the test on the interval, at [V = 1100.625], where
      the real part is [0.00625 >= tol = 0.001].
    - The real part [1000 V - 17] has its one zero in [[0.01, 0.03]] and
      [(V_hi - V_lo)/tol = 2] for [tol = 0.01]; with the cap
      [log2 2 = 1] the search ends not converged, and with the cap 18 it
      evaluates the two samples and 7 iterates: the test on the interval is
      relative to [V_hi], which is below 1 here.
    - The real part [V/100 - 11] has its one zero in [[1000, 1100]] at the
      upper end, where no sample is positive: the sweep reports no bracket.
    - With no division the sweep has one sample and reports no bracket. *)
Lemma bisection_convergence_counterexample :
  (let lam := Synthetic.crossing_at_1100 in
   let tol := 1 # 1000 in
   increasing (re_lambda lam) /\ continuous (re_lambda lam) /\
   crosses_zero_once (re_lambda lam) 1000 1200 /\
   (1200 - 1000) / tol <= pow2 18 /\
   exists rt,
     found (find_critical_root lam 1000 1200 10 tol 18) = true /\
     critical (find_critical_root lam 1000 1200 10 tol 18) = Some rt /\
     V rt == 1100 + (5 # 8) /\
     ~ Qabs (fst (root rt)) < tol) /\
  (let lam := Synthetic.crossing_below_one in
   let tol := 1 # 100 in
   increasing (re_lambda lam) /\ continuous (re_lambda lam) /\
   crosses_zero_once (re_lambda lam) (1 # 100) (3 # 100) /\
   ((3 # 100) - (1 # 100)) / tol <= pow2 1 /\
   found (find_critical_root lam (1 # 100) (3 # 100) 1 tol 1) = false /\
   indication (find_critical_root lam (1 # 100) (3 # 100) 1 tol 1) = NotConverged /\
   found (find_critical_root lam (1 # 100) (3 # 100) 1 tol 18) = true /\
   length (evaluated (find_critical_root lam (1 # 100) (3 # 100) 1 tol 18))
   = (2 + 7)%nat) /\
  (let lam := Synthetic.crossing_at_1100 in
   crosses_zero_once (re_lambda lam) 1000 1100 /\
   indication (find_critical_root lam 1000 1100 10 (1 # 1000) 18) = NoCrossingFound) /\
  (let lam := Synthetic.crossing_at_1100 in
   indication (find_critical_root lam 1000 1200 0 (1 # 1000) 18) = NoCrossingFound).
Proof.
  cbv zeta. split; [|split; [|split]].
  - split; [exact crossing_at_1100_increasing|].
    split; [exact crossing_at_1100_continuous|].
    split; [apply crossing_at_1100_once; lra|].
    split; [by vm_compute|].
    eexists. split; [by vm_compute|]. split; [by vm_compute|].
    split; by vm_compute.
  - split; [exact crossing_below_one_increasing|].
    split; [exact crossing_below_one_continuous|].
    split; [exact crossing_below_one_once|].
    split; [by vm_compute|].
    split; [by vm_compute|]. split; [by vm_compute|].
    split; by vm_compute.
  - split; [apply crossing_at_1100_once; lra | by vm_compute].
  - by vm_compute.
Qed.

Lemma bracket_invariant_kept_witness :
  Forall (fun it => bracket_invariant Synthetic.crossing_at_1100 (bracket it))
         (bisection Synthetic.crossing_at_1100 (1 # 1000) 18
                    {| V_lo := 1100; V_hi := 1120 |}).
Proof.
  apply (bracket_invariant_kept Synthetic.crossing_at_1100 (1 # 1000) 18
           {| V_lo := 1100; V_hi := 1120 |}).
  split; by vm_compute.
Defined.

End SearchExamples.

(** * Properties of the driver *)

Section DriverProperties.

Import FlutterSolver Analysis.

Variable rank : nat.
Variable eigenproblem_solve :
  gmap ptr Param -> StructuralDiscipline -> list (Complex * list Real).
Variable tracked_eigenvalue :
  gmap ptr Param -> StructuralDiscipline -> list (list Real) -> Real -> Complex.
Variable eigenvalue_sensitivity :
  gmap ptr Param -> StructuralDiscipline -> list (list Real) ->
  FlutterRootBase -> ptr -> Complex.

Abbreviation solve := (Analysis.solve rank eigenproblem_solve tracked_eigenvalue).
Abbreviation solve_modal := (Analysis.solve_modal eigenproblem_solve).
Abbreviation cleared := (Analysis.cleared rank).
Abbreviation solve_flutter := (Analysis.solve_flutter tracked_eigenvalue).
Abbreviation sensitivity_solve := (Analysis.sensitivity_solve eigenvalue_sensitivity).

(** Unfolding of the monad's operations. *)
Ltac run :=
  cbv [mbind M_bind mret M_ret get_state modify fail libmesh_assert print
       on_solver on_discipline].

Lemma solve_clear_eq (s : State) :
  solve_clear rank s =
  if _initialized s then Ok (tt, cleared s)
  else Err (AssertionFailure "_initialized").
Proof.
  unfold solve_clear, Analysis.cleared. run.
  destruct (_initialized s); [|done].
  by destruct (rank =? 0)%nat.
Qed.

Lemma for_each_cons {A} (x : A) (l : list A) (body : A -> M unit) (s : State) :
  for_each (x :: l) body s =
  match body x s with
  | Ok (_, s') => for_each l body s'
  | Err e => Err e
  end.
Proof. reflexivity. Qed.

Lemma store_mode_eq eigs w (i : nat) (s : State) lam vec :
  eigs !! i = Some (lam, vec) ->
  store_mode eigs w i s =
  Ok (tt, set_out (out s ++ [Number (fst lam)]
                   ++ if w then [Timestep "modes.exo" (i + 1)] else [])
            (set_basis (<[i:=Some vec]> (_basis s)) s)).
Proof.
  intros Hi. unfold store_mode. rewrite Hi. run.
  destruct w; cbn [out set_out set_basis].
  - by rewrite <- app_assoc.
  - by rewrite app_nil_r.
Qed.

Lemma for_each_store_mode eigs w (k i : nat) (s : State) :
  (i + k <= length eigs)%nat ->
  exists o b,
    for_each (seq i k) (store_mode eigs w) s = Ok (tt, set_out o (set_basis b s)) /\
    length b = length (_basis s) /\
    forall j, b !! j =
      if decide ((i <= j < i + k)%nat /\ (j < length (_basis s))%nat)
      then (fun e => Some (snd e)) <$> eigs !! j
      else _basis s !! j.
Proof.
  revert i s. induction k as [|k IH]; intros i s Hlen.
  - exists (out s), (_basis s). split; [by destruct s|]. split; [done|].
    intros j. case_decide; [lia | done].
  - destruct (lookup_lt_is_Some_2 eigs i) as [[lam vec] Hi]; [lia|].
    cbn [seq]. rewrite for_each_cons, (store_mode_eq eigs w i s lam vec Hi).
    set (b1 := <[i:=Some vec]> (_basis s)).
    set (o1 := out s ++ _).
    destruct (IH (S i) (set_out o1 (set_basis b1 s)))
      as (o & b & Hrun & Hb & Hlook); [lia|].
    subst b1.
    cbn [_basis out set_basis set_out] in *.
    exists o, b. split; [exact Hrun|].
    rewrite length_insert in Hb. split; [exact Hb|].
    intros j. rewrite Hlook, length_insert.
    destruct (decide (j = i)) as [->|Hne].
    + case_decide; [lia|]. case_decide.
      * rewrite list_lookup_insert_eq, Hi; [done | lia].
      * rewrite list_insert_ge; [done | lia].
    + rewrite list_lookup_insert_ne; [|done].
      repeat case_decide; try done; lia.
Qed.

Lemma modes_intro eigs (nconv : nat) (b b0 : list (option (list Real))) :
  (nconv <= length eigs)%nat -> length b0 = nconv -> length b = length b0 ->
  (forall j, b !! j =
     if decide ((0 <= j < 0 + nconv)%nat /\ (j < length b0)%nat)
     then (fun e => Some (snd e)) <$> eigs !! j
     else b0 !! j) ->
  b = modes eigs nconv.
Proof.
  intros Hn Hb0 Hb Hlook. apply list_eq. intros j.
  rewrite Hlook. unfold modes. rewrite list_lookup_fmap.
  case_decide as Hj.
  - rewrite lookup_take_lt; [done | lia].
  - rewrite lookup_ge_None_2; [|lia].
    rewrite lookup_take_ge; [done | lia].
Qed.

(** What the modal analysis leaves, or how it fails. *)
Lemma solve_modal_cases w (s : State) :
  match solve_modal w s with
  | Err e =>
      (e = AssertionFailure "_basis.size() == nconv" /\ _basis s <> []) \/
      (e = InvalidPointer /\ store s !! _velocity (members s) = None)
  | Ok (_, s') =>
      exists x o,
        store s !! _velocity (members s) = Some x /\
        let st0 := at_zero_velocity s x in
        let eigs := eigenproblem_solve st0 (_discipline s) in
        let nconv := (length eigs `min` n_requested_eigenvalues (_sys s))%nat in
        s' = set_out o (set_basis (modes eigs nconv) (set_store st0 s))
  end.
Proof.
  unfold Analysis.solve_modal. run. unfold assign.
  destruct (store s !! _velocity (members s)) as [x|] eqn:Hx; [|by right].
  cbn [store _discipline _sys _basis set_store].
  fold (at_zero_velocity s x). set (st0 := at_zero_velocity s x).
  set (eigs := eigenproblem_solve st0 (_discipline s)).
  set (nconv := (length eigs `min` n_requested_eigenvalues (_sys s))%nat).
  assert (Hn : (0 + nconv <= length eigs)%nat) by lia.
  destruct (0 <? length (_basis s))%nat eqn:Hpos.
  - destruct (length (_basis s) =? nconv)%nat eqn:Hsz;
      [|left; split; [done|]; by destruct (_basis s)].
    apply Nat.eqb_eq in Hsz.
    destruct (for_each_store_mode eigs w nconv 0 (set_store st0 s) Hn)
      as (o & b & -> & Hb & Hlook).
    exists x, o. split; [done|]. cbn zeta. do 2 f_equal.
    cbn [_basis set_store] in *.
    eapply modes_intro; [| exact Hsz | exact Hb | exact Hlook]. lia.
  - destruct (for_each_store_mode eigs w nconv 0
                (set_basis (replicate nconv None) (set_store st0 s)) Hn)
      as (o & b & -> & Hb & Hlook).
    exists x, o. split; [done|]. cbn zeta.
    cbn [_basis set_store set_basis] in *.
    replace b with (modes eigs nconv); [done|]. symmetry.
    eapply modes_intro; [| | exact Hb | exact Hlook];
      [lia | by rewrite length_replicate].
Qed.

Lemma basis_of_modes eigs (nconv : nat) :
  basis_of (modes eigs nconv) = Some (map snd (take nconv eigs)).
Proof.
  unfold basis_of, modes. induction (take nconv eigs) as [|e l IH]; [done|].
  cbn. cbn in IH. by rewrite IH.
Qed.

Lemma last_map {A B} (f : A -> B) (l : list A) :
  last (map f l) = f <$> last l.
Proof.
  induction l as [|x l IH]; [done|].
  cbn [map]. rewrite !last_cons, IH. by destruct (last l).
Qed.

(** The critical root of a search is the last root it evaluated, and a
    search that reports success has one. *)
Lemma find_critical_root_critical (lam : Real -> Complex) (lo hi : Real)
    (n_div : nat) (tol : Real) (n : nat) :
  let r := find_critical_root lam lo hi n_div tol n in
  (found r = true -> is_Some (critical r)) /\
  (forall rt, critical r = Some rt ->
              last (map as_root (evaluated r)) = Some rt).
Proof.
  unfold find_critical_root.
  destruct (first_crossing _) as [b|]; [|by split].
  unfold bisection_search.
  destruct (last (bisection lam tol n b)) as [it|] eqn:L;
    cbn [critical evaluated found]; [|by split].
  split; [by eauto|]. intros rt [= <-].
  by rewrite map_app, last_app, !last_map, L.
Qed.

(** What the flutter search of [solve] leaves, or how it fails. *)
Lemma solve_flutter_cases w (tol : Real) (n : nat) (s : State) basis :
  basis_of (_basis s) = Some basis ->
  let r := find_critical_root (tracked_eigenvalue (store s) (_discipline s) basis)
             1e3 1200 10 tol n in
  match solve_flutter w tol n s with
  | Err e => e = AssertionFailure "sol.first" /\ found r = false
  | Ok (v, s') =>
      exists rt o,
        found r = true /\ critical r = Some rt /\ v = V rt /\
        s' = set_out o
               (set_flutter_root (Some (length (evaluated r) - 1)%nat)
                  (set_flutter_solver (searched s basis r) s)) /\
        history (searched s basis r) !! (length (evaluated r) - 1)%nat = Some rt
  end.
Proof.
  intros Hb r. unfold Analysis.solve_flutter. run. rewrite Hb.
  unfold analyze_and_find_critical_root_without_tracking.
  cbn [_flutter_solver set_flutter_solver store _discipline V_range initialize
       attach_assembly set_assembly_attached n_divisions fst snd].
  fold r.
  destruct (find_critical_root_critical
              (tracked_eigenvalue (store s) (_discipline s) basis)
              1e3 1200 10 tol n) as [Hsome Hlast].
  fold r in Hsome, Hlast.
  destruct (found r) eqn:Hf; [|done].
  destruct Hsome as [rt Hrt]; [done|]. rewrite Hrt.
  assert (history (searched s basis r) !! (length (evaluated r) - 1)%nat = Some rt)
    as Hptr.
  { unfold searched. cbn [history clear_assembly_object set_assembly_attached
                          set_history].
    rewrite <- (Hlast rt Hrt), last_lookup, length_map.
    f_equal. lia. }
  cbn [fst snd andb _flutter_root set_flutter_root _flutter_solver
       set_flutter_solver set_out out option_bind mbind].
  rewrite length_map.
  unfold searched in Hptr. 
  destruct w; cbn [_flutter_root set_flutter_root _flutter_solver
       set_flutter_solver set_out out option_bind mbind];
  cbn [history clear_assembly_object set_assembly_attached set_history] in Hptr |- *;
  rewrite Hptr; eexists rt, _; (split; [done|]); (split; [done|]);
  (split; [done|]); (split; [reflexivity|]); exact Hptr.
Qed.

Lemma solve_eq w (tol : Real) (n : nat) (s : State) :
  solve w tol n s =
  if _initialized s
  then match solve_modal w (cleared s) with
       | Ok (_, s2) => solve_flutter w tol n s2
       | Err e => Err e
       end
  else Err (AssertionFailure "_initialized").
Proof.
  unfold Analysis.solve. cbv [mbind M_bind]. rewrite solve_clear_eq.
  by destruct (_initialized s).
Qed.

(** What [solve] returns and leaves, or how it fails. *)
Lemma solve_cases w (tol : Real) (n : nat) (s : State) :
  match solve w tol n s with
  | Err e =>
      (e = AssertionFailure "_initialized" /\ _initialized s = false) \/
      (e = AssertionFailure "_basis.size() == nconv" /\ _basis s <> []) \/
      (e = InvalidPointer /\ store s !! _velocity (members s) = None) \/
      e = AssertionFailure "sol.first"
  | Ok (v, s') =>
      _initialized s = true /\
      exists x rt o,
        store s !! _velocity (members s) = Some x /\
        let st0 := at_zero_velocity s x in
        let eigs := eigenproblem_solve st0 (_discipline s) in
        let nconv := (length eigs `min` n_requested_eigenvalues (_sys s))%nat in
        let basis := map snd (take nconv eigs) in
        let r := find_critical_root (tracked_eigenvalue st0 (_discipline s) basis)
                   1e3 1200 10 tol n in
        let s2 := set_basis (modes eigs nconv) (set_store st0 (cleared s)) in
        found r = true /\ critical r = Some rt /\ v = V rt /\
        s' = set_out o
               (set_flutter_root (Some (length (evaluated r) - 1)%nat)
                  (set_flutter_solver (searched s2 basis r) s2)) /\
        history (searched s2 basis r) !! (length (evaluated r) - 1)%nat = Some rt
  end.
Proof.
  rewrite solve_eq. destruct (_initialized s) eqn:Hinit; [|by left].
  pose proof (solve_modal_cases w (cleared s)) as Hm.
  destruct (solve_modal w (cleared s)) as [[[] s2]|e]; [|right; tauto].
  destruct Hm as (x & o & Hx & Hs2). cbv zeta in Hs2.
  change (store (cleared s)) with (store s) in *.
  change (members (cleared s)) with (members s) in *.
  change (_discipline (cleared s)) with (_discipline s) in *.
  change (_sys (cleared s)) with (_sys s) in *.
  change (at_zero_velocity (cleared s) x) with (at_zero_velocity s x) in *.
  set (st0 := at_zero_velocity s x) in *.
  set (eigs := eigenproblem_solve st0 (_discipline s)) in *.
  set (nconv := (length eigs `min` n_requested_eigenvalues (_sys s))%nat) in *.
  pose proof (solve_flutter_cases w tol n s2 (map snd (take nconv eigs))) as Hf.
  rewrite Hs2 in Hf at 1. specialize (Hf (basis_of_modes eigs nconv)).
  cbv zeta in Hf.
  destruct (solve_flutter w tol n s2) as [[v s']|e].
  - destruct Hf as (rt & o' & Hfound & Hcrit & Hv & Hs' & Hptr).
    split; [done|]. exists x, rt, (o').
    split; [done|]. cbv zeta. fold st0 eigs nconv.
    subst s2. cbn [store _discipline set_out set_basis set_store] in *.
    unfold searched in *. cbn [_flutter_solver members set_out set_basis set_store] in *.
    done.
  - do 3 right. apply Hf.
Qed.

(** C3 (amended).  When the tracked real part is negative at each of the
    eleven velocities the driver's sweep samples, the search returns
    [found = false] with no root and the [NoCrossingFound] indication, and
    [solve] returns no velocity from any state: it stops on a failure, which
    on an initialized object with its velocity parameter and no basis yet is
    the assertion that a solution was found. *)
Theorem solve_no_crossing w (tol : Real) (n : nat) (s : State) :
  (forall st d basis,
     Forall (fun v => (re_lambda (tracked_eigenvalue st d basis) v < 0)%Q)
            (samples 1e3 1200 10)) ->
  (forall st d basis,
     let r := find_critical_root (tracked_eigenvalue st d basis)
                1e3 1200 10 tol n in
     found r = false /\ critical r = None /\ indication r = NoCrossingFound) /\
  exists e, solve w tol n s = Err e /\
            (_initialized s = true ->
             is_Some (store s !! _velocity (members s)) ->
             _basis s = [] ->
             e = AssertionFailure "sol.first").
Proof.
  intros Hneg. split.
  - intros st d basis. cbv zeta.
    by rewrite (find_critical_root_no_crossing _ _ _ _ _ _ (Hneg st d basis)).
  - pose proof (solve_cases w tol n s) as Hs.
    destruct (solve w tol n s) as [[v s']|e].
    + destruct Hs as (_ & x & rt & o & _ & Hs). cbv zeta in Hs.
      destruct Hs as (Hfound & _).
      rewrite (find_critical_root_no_crossing _ _ _ _ _ _ (Hneg _ _ _)) in Hfound.
      discriminate Hfound.
    + exists e. split; [done|]. intros Hinit [x Hx] Hbasis.
      destruct Hs as [[_ ?]|[[_ ?]|[[_ ?]|?]]]; [congruence.. | done].
Qed.

Lemma sensitivity_solve_no_root (p : ptr) (s : State) :
  _initialized s = true -> _flutter_root s = None ->
  sensitivity_solve p s = Err (AssertionFailure "_flutter_root").
Proof.
  intros Hinit Hroot. unfold Analysis.sensitivity_solve. run.
  by rewrite Hinit, Hroot.
Qed.

Lemma sensitivity_solve_uninitialized (p : ptr) (s : State) :
  _initialized s = false ->
  sensitivity_solve p s = Err (AssertionFailure "_initialized").
Proof.
  intros Hinit. unfold Analysis.sensitivity_solve. run. by rewrite Hinit.
Qed.

(** C7.  On an initialized object the first lines of [solve] succeed and
    leave no flutter root and an empty solver history, with the basis, the
    discipline, the parameter objects and the sensitivity set as they were;
    from there a sensitivity request is refused and the listing of roots is
    empty, and the rest of [solve] runs from that state. *)
Theorem solve_clear_frame (s : State) :
  _initialized s = true ->
  exists s',
    solve_clear rank s = Ok (tt, s') /\
    _flutter_root s' = None /\
    history (_flutter_solver s') = [] /\
    _basis s' = _basis s /\
    _discipline s' = _discipline s /\
    store s' = store s /\
    members s' = members s /\
    _params_for_sensitivity s' = _params_for_sensitivity s /\
    (forall p, sensitivity_solve p s' = Err (AssertionFailure "_flutter_root")) /\
    print_sorted_roots (_flutter_solver s') = [] /\
    (forall w tol n,
       solve w tol n s = (solve_modal w;; solve_flutter w tol n) s').
Proof.
  intros Hinit. exists (cleared s).
  rewrite solve_clear_eq, Hinit.
  assert (history (_flutter_solver (cleared s)) = []) as Hh.
  { unfold Analysis.cleared. cbn. by destruct (rank =? 0)%nat. }
  repeat split; try done.
  - intros p. by apply sensitivity_solve_no_root.
  - unfold print_sorted_roots. by rewrite Hh.
  - intros w tol n. rewrite solve_eq, Hinit. reflexivity.
Qed.

Lemma solve_modal_any_velocity w (s : State) (x : Param) (y : Real) :
  store s !! _velocity (members s) = Some x ->
  solve_modal w
    (cleared (set_store (<[_velocity (members s) := {| name := name x; value := y |}]>
                           (store s)) s))
  = solve_modal w (cleared s).
Proof.
  intros Hx.
  set (sy := set_store _ s).
  assert (assign (_velocity (members s)) 0 (cleared sy)
          = assign (_velocity (members s)) 0 (cleared s)) as Ha.
  { unfold assign. change (store (cleared sy)) with (store sy).
    change (store (cleared s)) with (store s).
    unfold sy. cbn [store set_store]. rewrite lookup_insert_eq, Hx.
    cbn [name]. rewrite insert_insert_eq. reflexivity. }
  unfold Analysis.solve_modal. cbv [mbind M_bind get_state].
  change (members (cleared sy)) with (members s).
  change (members (cleared s)) with (members s).
  by rewrite Ha.
Qed.

(** C8.  On an object whose velocity parameter exists, [solve] does the same,
    result and final state, whatever value the velocity parameter holds
    before the call; and when it returns, the velocity parameter holds 0 and
    the basis it leaves, which is the one handed to the flutter solver,
    consists of the modes of the structural eigenproblem solved with the
    velocity parameter at 0. *)
Theorem solve_basis_at_zero_velocity w (tol : Real) (n : nat) (s : State)
    (x : Param) :
  store s !! _velocity (members s) = Some x ->
  (forall y,
     solve w tol n
       (set_store (<[_velocity (members s) := {| name := name x; value := y |}]>
                     (store s)) s)
     = solve w tol n s) /\
  (forall v s',
     solve w tol n s = Ok (v, s') ->
     let st0 := at_zero_velocity s x in
     let eigs := eigenproblem_solve st0 (_discipline s) in
     let nconv := (length eigs `min` n_requested_eigenvalues (_sys s))%nat in
     value <$> st0 !! _velocity (members s) = Some 0%Q /\
     store s' = st0 /\
     _basis s' = modes eigs nconv /\
     basis_of (_basis s') = Some (basis_vectors (_flutter_solver s'))).
Proof.
  intros Hx. split.
  - intros y. rewrite !solve_eq. cbn [_initialized set_store].
    by rewrite (solve_modal_any_velocity w s x y Hx).
  - intros v s' Hsolve. pose proof (solve_cases w tol n s) as Hs.
    rewrite Hsolve in Hs. destruct Hs as (Hinit & x' & rt & o & Hx' & Hs).
    rewrite Hx in Hx'. injection Hx' as <-.
    cbv zeta in Hs. destruct Hs as (_ & _ & _ & -> & _). cbv zeta.
    split; [unfold at_zero_velocity; by rewrite lookup_insert_eq|].
    split; [done|]. split; [done|].
    cbn [_basis set_out set_flutter_root set_flutter_solver set_basis
         _flutter_solver].
    rewrite basis_of_modes. reflexivity.
Qed.

(** The discipline while the solver computes the sensitivity. *)
Lemma sensitivity_solve_eq (p : ptr) (s : State) (r : ptr) (rt : FlutterRootBase) :
  _initialized s = true ->
  _flutter_root s = Some r ->
  history (_flutter_solver s) !! r = Some rt ->
  let d1 := add_parameter p (add_parameter (_velocity (members s)) (_discipline s)) in
  let fs1 := attach_assembly (_flutter_solver s) in
  let dre q := fst (eigenvalue_sensitivity (store s) d1 (basis_vectors fs1) rt q) in
  let x := flutter_velocity_sensitivity (dre p) (dre (_velocity (members s))) in
  sensitivity_solve p s =
  Ok (x,
      set_discipline
        (remove_parameter (_velocity (members s)) (remove_parameter p d1))
        (set_flutter_solver
           (clear_assembly_object
              (set_history (<[r := set_V_sens x rt]> (history fs1)) fs1))
           s)).
Proof.
  intros Hinit Hroot Hrt. cbv zeta.
  unfold Analysis.sensitivity_solve. run. rewrite Hinit, Hroot.
  cbn [non_null _flutter_root set_discipline set_flutter_solver _flutter_solver
       _discipline store members attach_assembly set_assembly_attached history
       basis_vectors option_bind mbind].
  rewrite Hroot. cbn [option_bind]. rewrite Hrt. cbn [fmap option_fmap option_map].
  unfold calculate_sensitivity.
  cbn [history attach_assembly set_assembly_attached].
  rewrite Hrt. rewrite decide_True
    by (cbn; apply elem_of_union; left; by apply elem_of_singleton).
  cbn [set_discipline set_flutter_solver _flutter_solver _discipline
       clear_assembly_object set_assembly_attached set_history history members].
  rewrite list_lookup_insert_eq by (by eapply lookup_lt_Some).
  reflexivity.
Qed.

(** C4.  With a flutter root held by the solver, [sensitivity_solve] returns
    [- d(re lambda)/dp / d(re lambda)/dV], the value implicit differentiation
    of [re lambda (V, p) = 0] gives, and that value is the [V_sens] field of
    the root [_flutter_root] points to afterwards. *)
Theorem sensitivity_solve_value (p : ptr) (s : State) (r : ptr)
    (rt : FlutterRootBase) :
  _initialized s = true ->
  _flutter_root s = Some r ->
  history (_flutter_solver s) !! r = Some rt ->
  let d1 := add_parameter p (add_parameter (_velocity (members s)) (_discipline s)) in
  let dre q :=
    fst (eigenvalue_sensitivity (store s) d1
           (basis_vectors (_flutter_solver s)) rt q) in
  let dre_dp := dre p in
  let dre_dV := dre (_velocity (members s)) in
  exists (x : Real) (s' : State),
    sensitivity_solve p s = Ok (x, s') /\
    x = (- dre_dp / dre_dV)%Q /\
    (~ (dre_dV == 0)%Q -> (dre_dp + dre_dV * x == 0)%Q) /\
    _flutter_root s' = Some r /\
    V_sens <$> history (_flutter_solver s') !! r = Some x /\
    V <$> history (_flutter_solver s') !! r = Some (V rt).
Proof.
  intros Hinit Hroot Hrt. cbv zeta.
  rewrite (sensitivity_solve_eq p s r rt Hinit Hroot Hrt).
  eexists _, _. split; [reflexivity|].
  cbn [attach_assembly basis_vectors set_assembly_attached].
  split; [reflexivity|]. split.
  - intros Hnz. unfold flutter_velocity_sensitivity. field. exact Hnz.
  - cbn [_flutter_root set_discipline set_flutter_solver _flutter_solver
         clear_assembly_object set_assembly_attached set_history history].
    rewrite list_lookup_insert_eq by (by eapply lookup_lt_Some).
    done.
Qed.

(** C5 (amended).  On an initialized object without a flutter root,
    [sensitivity_solve] stops on its assertion that there is one; with a
    flutter root held by the solver it returns a value for every parameter
    [p], whether or not [p] is in the sensitivity set. *)
Theorem sensitivity_solve_guard (p : ptr) (s : State) :
  _initialized s = true ->
  (_flutter_root s = None ->
   sensitivity_solve p s = Err (AssertionFailure "_flutter_root")) /\
  ((exists r, _flutter_root s = Some r /\
              is_Some (history (_flutter_solver s) !! r)) ->
   is_Ok (sensitivity_solve p s) = true).
Proof.
  intros Hinit. split.
  - by apply sensitivity_solve_no_root.
  - intros (r & Hroot & rt & Hrt).
    by rewrite (sensitivity_solve_eq p s r rt Hinit Hroot Hrt).
Qed.

(** The registry after [sensitivity_solve]: the two parameters it added are
    taken out again. *)
Lemma sensitivity_solve_registry (p : ptr) (s : State) (x : Real) (s' : State) :
  sensitivity_solve p s = Ok (x, s') ->
  parameters (_discipline s') =
  parameters (_discipline s) ∖ {[p]} ∖ {[_velocity (members s)]} /\
  dirichlet_bc (_discipline s') = dirichlet_bc (_discipline s) /\
  subdomain_property (_discipline s') = subdomain_property (_discipline s) /\
  volume_load (_discipline s') = volume_load (_discipline s).
Proof.
  intros Hs.
  destruct (_initialized s) eqn:Hinit;
    [|by rewrite sensitivity_solve_uninitialized in Hs].
  destruct (_flutter_root s) as [r|] eqn:Hroot;
    [|by rewrite sensitivity_solve_no_root in Hs].
  destruct (history (_flutter_solver s) !! r) as [rt|] eqn:Hrt.
  - rewrite (sensitivity_solve_eq p s r rt Hinit Hroot Hrt) in Hs.
    injection Hs as _ <-.
    cbn [_discipline set_discipline parameters remove_parameter add_parameter
         set_parameters dirichlet_bc subdomain_property volume_load].
    split; [|done]. apply set_eq. intros q.
    rewrite !elem_of_difference, !elem_of_union, !elem_of_singleton. tauto.
  - unfold Analysis.sensitivity_solve in Hs. revert Hs. run.
    rewrite Hinit, Hroot.
    cbn [non_null _flutter_root set_discipline set_flutter_solver _flutter_solver
         attach_assembly set_assembly_attached history option_bind mbind].
    rewrite Hroot. cbn [option_bind]. by rewrite Hrt.
Qed.

(** ** get_parameter *)

Abbreviation named nm st := (fun p : ptr => name_of st p = Some nm).

(** The loop returns the last parameter with the name. *)
Lemma lookup_by_name_eq (nm : string) (st : gmap ptr Param) (params : list ptr) :
  Forall (fun p => is_Some (st !! p)) params ->
  lookup_by_name nm st params =
  Some (last (filter (named nm st) params),
        non_null (last (filter (named nm st) params))).
Proof.
  induction params as [|p params IH] using rev_ind; intros Hvalid; [done|].
  apply Forall_app in Hvalid as [Hvalid Hp].
  apply Forall_singleton in Hp as [x Hx].
  unfold lookup_by_name in *. rewrite foldl_app. cbn [foldl].
  rewrite (IH Hvalid). cbn [mbind option_bind].
  assert (name_of st p = Some (name x)) as Hn by (unfold name_of; by rewrite Hx).
  rewrite Hn. cbn [mbind option_bind].
  rewrite filter_app, filter_cons, filter_nil.
  destruct (String.eqb nm (name x)) eqn:E.
  - apply String.eqb_eq in E. rewrite decide_True by congruence.
    by rewrite last_snoc.
  - apply String.eqb_neq in E. rewrite decide_False by congruence.
    by rewrite app_nil_r.
Qed.

Lemma get_parameter_eq (nm : string) (s : State) :
  Forall (fun p => is_Some (store s !! p)) (_params_for_sensitivity s) ->
  let r := last (filter (named nm (store s)) (_params_for_sensitivity s)) in
  get_parameter nm s =
  Ok (r, if non_null r then s
         else set_out (out s ++ not_found_message nm (store s)
                                  (_params_for_sensitivity s)) s).
Proof.
  intros Hvalid r. unfold get_parameter. run.
  rewrite (lookup_by_name_eq nm _ _ Hvalid). fold r.
  by destruct (non_null r).
Qed.

Lemma last_filter_Some {A} (P : A -> Prop) `{!forall x, Decision (P x)}
    (l : list A) (x : A) :
  last (filter P l) = Some x <->
  exists l1 l2, l = l1 ++ x :: l2 /\ P x /\ Forall (fun y => ~ P y) l2.
Proof.
  split.
  - induction l as [|y l IH] using rev_ind; [done|].
    rewrite filter_app, filter_cons, filter_nil.
    case_decide as Hy.
    + rewrite last_snoc. intros [= ->]. exists l, []. by repeat split.
    + rewrite app_nil_r. intros Hl.
      destruct (IH Hl) as (l1 & l2 & -> & Hx & Hl2).
      exists l1, (l2 ++ [y]). split; [by rewrite <- app_assoc|].
      split; [done|]. apply Forall_app. split; [done|]. by constructor.
  - intros (l1 & l2 & -> & Hx & Hl2).
    rewrite filter_app, filter_cons, decide_True by done.
    replace (filter P l2) with (@nil A); [by rewrite last_snoc|].
    symmetry. clear Hx. induction l2 as [|y l2 IH]; [done|].
    apply Forall_cons in Hl2 as [Hy Hl2].
    rewrite filter_cons, decide_False by done. by apply IH.
Qed.

Lemma last_filter_None {A} (P : A -> Prop) `{!forall x, Decision (P x)}
    (l : list A) :
  last (filter P l) = None <-> Forall (fun y => ~ P y) l.
Proof.
  rewrite last_None. induction l as [|y l IH]; [by split|].
  rewrite filter_cons, Forall_cons. case_decide; [|by rewrite IH; tauto].
  split; [done | tauto].
Qed.

(** C10.  On a sensitivity set of live parameters, [get_parameter nm] returns
    the last parameter of the set whose name is [nm], a non-null pointer to a
    parameter named [nm] of the set, when there is one, and otherwise null
    after printing the names of the set; the set, the parameters and, when
    the name is found, the whole object are left as they were. *)
Theorem get_parameter_spec (nm : string) (s : State) :
  Forall (fun p => is_Some (store s !! p)) (_params_for_sensitivity s) ->
  exists (r : option ptr) (s' : State),
    get_parameter nm s = Ok (r, s') /\
    _params_for_sensitivity s' = _params_for_sensitivity s /\
    store s' = store s /\
    match r with
    | Some p =>
        name_of (store s) p = Some nm /\
        (exists l1 l2, _params_for_sensitivity s = l1 ++ p :: l2 /\
                       Forall (fun q => name_of (store s) q <> Some nm) l2) /\
        s' = s
    | None =>
        Forall (fun q => name_of (store s) q <> Some nm)
               (_params_for_sensitivity s) /\
        out s' =
          out s ++ [Text ""; Text ("Parameter not found by name: " ++ nm);
                    Text "Valid names are: "]
                ++ omap (fun q => (fun n => Text ("   " ++ n)) <$> name_of (store s) q)
                        (_params_for_sensitivity s)
                ++ [Text ""]
    end.
Proof.
  intros Hvalid. rewrite (get_parameter_eq nm s Hvalid). cbv zeta.
  destruct (last (filter (named nm (store s)) (_params_for_sensitivity s)))
    as [p|] eqn:Hlast; eexists _, _; (split; [reflexivity|]); cbn [non_null].
  - apply last_filter_Some in Hlast as (l1 & l2 & Hl & Hp & Hl2).
    repeat split; try done. by exists l1, l2.
  - apply last_filter_None in Hlast. by repeat split.
Qed.

(** ** The reachable states *)

Lemma registry_empty (p v : ptr) : (∅ : gset ptr) ∖ {[p]} ∖ {[v]} = ∅.
Proof.
  apply set_eq. intros q. rewrite !elem_of_difference.
  split; [by intros [[H _] _] | intros H; by apply not_elem_of_empty in H].
Qed.

Abbreviation reachable :=
  (Analysis.reachable rank eigenproblem_solve tracked_eigenvalue
     eigenvalue_sensitivity).

Lemma sensitivity_solve_inv (p : ptr) (s : State) (x : Real) (s' : State) :
  sensitivity_solve p s = Ok (x, s') ->
  _initialized s = true /\
  exists r rt, _flutter_root s = Some r /\
               history (_flutter_solver s) !! r = Some rt.
Proof.
  intros Hs.
  destruct (_initialized s) eqn:Hinit;
    [|by rewrite sensitivity_solve_uninitialized in Hs].
  destruct (_flutter_root s) as [r|] eqn:Hroot;
    [|by rewrite sensitivity_solve_no_root in Hs].
  destruct (history (_flutter_solver s) !! r) as [rt|] eqn:Hrt; [by eauto|].
  unfold Analysis.sensitivity_solve in Hs. revert Hs. run.
  rewrite Hinit, Hroot.
  cbn [non_null _flutter_root set_discipline set_flutter_solver _flutter_solver
       attach_assembly set_assembly_attached history option_bind mbind].
  rewrite Hroot. cbn [option_bind]. by rewrite Hrt.
Qed.

Lemma get_parameter_frame (nm : string) (s : State) (r : option ptr) (s' : State) :
  get_parameter nm s = Ok (r, s') -> exists o, s' = set_out o s.
Proof.
  unfold get_parameter. run.
  destruct (lookup_by_name nm (store s) (_params_for_sensitivity s))
    as [[rval [|]]|]; [| |done].
  - intros [= _ <-]. exists (out s). by destruct s.
  - intros [= _ <-]. by eexists.
Qed.

Lemma name_of_at_zero_velocity (s : State) (x : Param) (p : ptr) :
  store s !! _velocity (members s) = Some x ->
  name_of (at_zero_velocity s x) p = name_of (store s) p.
Proof.
  intros Hx. unfold name_of, at_zero_velocity.
  destruct (decide (p = _velocity (members s))) as [->|Hne].
  - by rewrite lookup_insert_eq, Hx.
  - by rewrite lookup_insert_ne.
Qed.

Lemma well_formed_init etype if_nonlin (s : State) :
  init etype if_nonlin constructed = Ok (tt, s) -> well_formed s.
Proof.
  intros H. vm_compute in H. injection H as <-.
  unfold well_formed. cbn [_initialized _discipline parameters members
    _params_for_sensitivity created _thy _thz _rho _E _nu _zero _velocity _mach
    _rho_air _gamma_air _flutter_root store].
  repeat split; try done.
  compute_done.
Qed.

Lemma well_formed_get_parameter (nm : string) (s : State) r (s' : State) :
  well_formed s -> get_parameter nm s = Ok (r, s') -> well_formed s'.
Proof.
  intros Hwf H. apply get_parameter_frame in H as [o ->]. exact Hwf.
Qed.

Lemma well_formed_solve w (tol : Real) (n : nat) (s : State) v (s' : State) :
  well_formed s -> solve w tol n s = Ok (v, s') -> well_formed s'.
Proof.
  intros (Hinit & Hpar & Hsens & Hnd & Hnames & _) Hsolve.
  pose proof (solve_cases w tol n s) as Hs. rewrite Hsolve in Hs.
  destruct Hs as (_ & x & rt & o & Hx & Hs). cbv zeta in Hs.
  destruct Hs as (_ & _ & _ & -> & Hptr).
  unfold well_formed.
  cbn [_initialized _discipline members _params_for_sensitivity store
       _flutter_root _flutter_solver set_out set_flutter_root set_flutter_solver
       set_basis set_store Analysis.cleared].
  repeat split; try done.
  - rewrite <- Hnames. apply map_ext. intros p.
    by apply name_of_at_zero_velocity.
  - intros r [= <-]. by eexists.
Qed.

Lemma well_formed_sensitivity_solve (p : ptr) (s : State) x (s' : State) :
  well_formed s -> sensitivity_solve p s = Ok (x, s') -> well_formed s'.
Proof.
  intros (Hinit & Hpar & Hsens & Hnd & Hnames & Hroot) Hs.
  destruct (sensitivity_solve_registry p s x s' Hs) as (Hreg & _).
  destruct (sensitivity_solve_inv p s x s' Hs) as (_ & r & rt & Hr & Hrt).
  rewrite (sensitivity_solve_eq p s r rt Hinit Hr Hrt) in Hs.
  injection Hs as _ <-. unfold well_formed.
  split; [done|]. split; [rewrite Hreg, Hpar; apply registry_empty|].
  cbn [_initialized _discipline members _params_for_sensitivity store
       _flutter_root _flutter_solver set_discipline set_flutter_solver].
  repeat split; try done.
  intros r' Hr'. rewrite Hr in Hr'. injection Hr' as <-.
  cbn [history clear_assembly_object set_assembly_attached set_history
       attach_assembly].
  apply lookup_lt_is_Some. rewrite length_insert. by eapply lookup_lt_Some.
Qed.

Lemma reachable_well_formed (s : State) : reachable s -> well_formed s.
Proof.
  induction 1 as [etype if_nonlin s H | s nm r s' _ IH H
                 | s w tol n v s' _ IH H | s p v s' _ IH H].
  - by eapply well_formed_init.
  - by eapply well_formed_get_parameter.
  - by eapply well_formed_solve.
  - by eapply well_formed_sensitivity_solve.
Qed.

Lemma well_formed_valid (s : State) :
  well_formed s ->
  Forall (fun p => is_Some (store s !! p)) (_params_for_sensitivity s).
Proof.
  intros (_ & _ & Hsens & _ & Hnames & _). rewrite Hsens.
  cbn [created map] in Hnames.
  injection Hnames as Hthy Hthz _ HE Hnu _.
  assert (forall p n, name_of (store s) p = Some n -> is_Some (store s !! p)) as Hv.
  { intros p n. unfold name_of. destruct (store s !! p); [by eauto | done]. }
  repeat constructor; by eapply Hv.
Qed.

(** C6 (amended).  In every state the driver reaches, the four parameters of
    the sensitivity set carry four different names, so that at most one of
    them has a given name and [get_parameter] returns that one. *)
Theorem sensitivity_names_unique (s : State) :
  reachable s ->
  NoDup (map (name_of (store s)) (_params_for_sensitivity s)) /\
  (forall nm p q,
     p ∈ _params_for_sensitivity s -> q ∈ _params_for_sensitivity s ->
     name_of (store s) p = Some nm -> name_of (store s) q = Some nm -> p = q) /\
  (forall nm q,
     q ∈ _params_for_sensitivity s -> name_of (store s) q = Some nm ->
     exists s', get_parameter nm s = Ok (Some q, s')).
Proof.
  intros Hreach. pose proof (reachable_well_formed s Hreach) as Hwf.
  pose proof (well_formed_valid s Hwf) as Hvalid.
  destruct Hwf as (_ & _ & Hsens & _ & Hnames & _).
  cbn [created map] in Hnames.
  injection Hnames as Hthy Hthz _ HE Hnu _.
  assert (NoDup (map (name_of (store s)) (_params_for_sensitivity s))) as Hnd.
  { rewrite Hsens. cbn [map]. rewrite HE, Hnu, Hthy, Hthz. compute_done. }
  assert (forall nm p q,
     p ∈ _params_for_sensitivity s -> q ∈ _params_for_sensitivity s ->
     name_of (store s) p = Some nm -> name_of (store s) q = Some nm -> p = q)
    as Huniq.
  { intros nm p q Hp Hq Hnp Hnq.
    apply list_elem_of_lookup in Hp as [i Hi]. apply list_elem_of_lookup in Hq as [j Hj].
    assert (i = j) as ->; [|congruence].
    eapply (NoDup_lookup _ i j (Some nm) Hnd);
      rewrite list_lookup_fmap; [rewrite Hi | rewrite Hj]; cbn; congruence. }
  split; [exact Hnd|]. split; [exact Huniq|].
  intros nm q Hq Hnq. rewrite (get_parameter_eq nm s Hvalid). cbv zeta.
  destruct (last (filter (named nm (store s)) (_params_for_sensitivity s)))
    as [p|] eqn:Hlast.
  - apply last_filter_Some in Hlast as (l1 & l2 & Hl & Hp & _).
    assert (p = q) as ->; [|by eexists].
    eapply Huniq; [| exact Hq | exact Hp | exact Hnq].
    rewrite Hl. apply elem_of_app. right. by left.
  - apply last_filter_None in Hlast.
    rewrite Forall_forall in Hlast. by destruct (Hlast q Hq).
Qed.

(** The registry is empty in every state the driver reaches: [init]
    registers nothing, and only [sensitivity_solve] adds or removes. *)
Lemma reachable_registry (s : State) :
  reachable s -> parameters (_discipline s) = ∅.
Proof. intros Hreach. by destruct (reachable_well_formed s Hreach) as (_ & Hpar & _). Qed.

(** C9.  When neither the velocity parameter nor [p] is registered with the
    discipline before the call, as in every state the driver reaches, a call
    of [sensitivity_solve] that returns leaves the discipline as it was: a
    parameter is registered afterwards exactly when it was registered
    before.  The sensitivity is computed on the discipline with the velocity
    parameter and [p] added to the registered ones, and the two are removed
    afterwards. *)
Theorem sensitivity_solve_registry_restored (p : ptr) (s : State) (x : Real)
    (s' : State) :
  _velocity (members s) ∉ parameters (_discipline s) ->
  p ∉ parameters (_discipline s) ->
  sensitivity_solve p s = Ok (x, s') ->
  (forall q, q ∈ parameters (_discipline s') <-> q ∈ parameters (_discipline s)) /\
  _discipline s' = _discipline s /\
  exists r rt,
    _flutter_root s = Some r /\
    history (_flutter_solver s) !! r = Some rt /\
    let d1 := add_parameter p (add_parameter (_velocity (members s)) (_discipline s)) in
    let dre q :=
      fst (eigenvalue_sensitivity (store s) d1
             (basis_vectors (_flutter_solver s)) rt q) in
    (forall q, q ∈ parameters d1 <->
               q = p \/ q = _velocity (members s) \/ q ∈ parameters (_discipline s)) /\
    x = flutter_velocity_sensitivity (dre p) (dre (_velocity (members s))) /\
    _discipline s' = remove_parameter (_velocity (members s)) (remove_parameter p d1).
Proof.
  intros HV Hp Hs.
  destruct (sensitivity_solve_registry p s x s' Hs) as (Hreg & Hbc & Hsub & Hvol).
  assert (parameters (_discipline s') = parameters (_discipline s)) as Heq.
  { rewrite Hreg. apply set_eq. intros q.
    rewrite !elem_of_difference, !elem_of_singleton.
    split; [tauto|]. intros Hq. repeat split; [done | | ]; intros ->; done. }
  split; [by rewrite Heq|]. split.
  { destruct (_discipline s'), (_discipline s). cbn in *. congruence. }
  destruct (sensitivity_solve_inv p s x s' Hs) as (Hinit & r & rt & Hroot & Hrt).
  exists r, rt. split; [done|]. split; [done|]. cbv zeta.
  rewrite (sensitivity_solve_eq p s r rt Hinit Hroot Hrt) in Hs.
  injection Hs as <- <-.
  split; [|split; done].
  intros q. cbn [add_parameter set_parameters parameters].
  rewrite !elem_of_union, !elem_of_singleton. tauto.
Qed.

End DriverProperties.

(** * The synthetic problem, run *)

Section DriverExamples.

Import FlutterSolver Analysis.

Abbreviation synthetic_reachable :=
  (Analysis.reachable Synthetic.rank Synthetic.eigenproblem_solve
     Synthetic.tracked_eigenvalue Synthetic.eigenvalue_sensitivity).

Lemma initial_state_eq :
  init 0 false constructed = Ok (tt, Synthetic.initial_state).
Proof. by vm_compute. Qed.

Lemma solved_eq :
  Synthetic.solve false (1 # 1000)%Q 18 Synthetic.initial_state
  = Ok (fst Synthetic.solved, Synthetic.solved_state).
Proof. by vm_compute. Qed.

Lemma sensitivity_eq (p : ptr) :
  (p < 10)%nat ->
  Synthetic.sensitivity_solve p Synthetic.solved_state
  = Ok (fst (Synthetic.sensitivity p), snd (Synthetic.sensitivity p)).
Proof.
  intros Hp. do 10 (destruct p as [|p]; [by vm_compute|]). lia.
Qed.

Lemma initial_state_reachable : synthetic_reachable Synthetic.initial_state.
Proof. apply (reachable_init _ _ _ _ 0%nat false), initial_state_eq. Qed.

Lemma solved_state_reachable : synthetic_reachable Synthetic.solved_state.
Proof.
  exact (reachable_solve _ _ _ _ Synthetic.initial_state false (1 # 1000)%Q 18
           (fst Synthetic.solved) Synthetic.solved_state
           initial_state_reachable solved_eq).
Qed.

Lemma solve_no_crossing_witness :
  (forall st d basis,
     let r := find_critical_root (Synthetic.damped_eigenvalue st d basis)
                1e3 1200 10 (1 # 1000) 18 in
     found r = false /\ critical r = None /\ indication r = NoCrossingFound) /\
  exists e,
    Analysis.solve Synthetic.rank Synthetic.eigenproblem_solve
      Synthetic.damped_eigenvalue false (1 # 1000)%Q 18 Synthetic.initial_state
    = Err e /\
    (_initialized Synthetic.initial_state = true ->
     is_Some (store Synthetic.initial_state
                !! _velocity (members Synthetic.initial_state)) ->
     _basis Synthetic.initial_state = [] ->
     e = AssertionFailure "sol.first").
Proof.
  apply (solve_no_crossing Synthetic.rank Synthetic.eigenproblem_solve
           Synthetic.damped_eigenvalue false (1 # 1000)%Q 18
           Synthetic.initial_state).
  intros st d basis. apply Forall_forall. intros v _. reflexivity.
Defined.

(** C3 (as stated) fails: the real part is -1 at every velocity, and [solve]
    on the initialized object does not return: it aborts on its assertion
    that a solution was found. *)
Lemma solve_no_crossing_counterexample :
  (forall st d basis v,
     (re_lambda (Synthetic.damped_eigenvalue st d basis) v < 0)%Q) /\
  _initialized Synthetic.initial_state = true /\
  Analysis.solve Synthetic.rank Synthetic.eigenproblem_solve
    Synthetic.damped_eigenvalue false (1 # 1000)%Q 18 Synthetic.initial_state
  = Err (AssertionFailure "sol.first").
Proof.
  split; [intros; reflexivity|]. split; by vm_compute.
Qed.

Lemma sensitivity_solve_value_witness :
  exists x s',
    Synthetic.sensitivity_solve (_E (members Synthetic.solved_state))
      Synthetic.solved_state = Ok (x, s') /\
    V_sens <$> history (_flutter_solver s') !! 15%nat = Some x /\
    (x == -300)%Q.
Proof.
  destruct (sensitivity_solve_value Synthetic.eigenvalue_sensitivity
              (_E (members Synthetic.solved_state)) Synthetic.solved_state
              15%nat Synthetic.critical_root)
    as (x & s' & Hs & Hx & _ & _ & Hv & _); [by vm_compute..|].
  exists x, s'. split; [exact Hs|]. split; [exact Hv|].
  rewrite Hx. by vm_compute.
Defined.

Lemma sensitivity_solve_guard_witness :
  Synthetic.sensitivity_solve 7%nat Synthetic.initial_state
  = Err (AssertionFailure "_flutter_root") /\
  is_Ok (Synthetic.sensitivity_solve 3%nat Synthetic.solved_state) = true.
Proof.
  split.
  - apply (sensitivity_solve_guard Synthetic.eigenvalue_sensitivity 7%nat
             Synthetic.initial_state); by vm_compute.
  - apply (sensitivity_solve_guard Synthetic.eigenvalue_sensitivity 3%nat
             Synthetic.solved_state); [by vm_compute|].
    exists 15%nat. split; [by vm_compute|].
    exists Synthetic.critical_root. by vm_compute.
Defined.

(** C5 (as stated) fails: after a successful [solve], [sensitivity_solve] is
    called with the Mach number parameter, which is not in the sensitivity
    set, and returns a value. *)
Lemma stale_root_counterexample :
  let s := Synthetic.solved_state in
  let p := _mach (members s) in
  (p ∉ _params_for_sensitivity s) /\
  name_of (store s) p = Some "mach" /\
  is_Some (_flutter_root s) /\
  exists x s', Synthetic.sensitivity_solve p s = Ok (x, s') /\ (x == -300)%Q.
Proof.
  cbv zeta. split; [compute_done|]. split; [by vm_compute|].
  split; [compute_done|].
  eexists _, _. split; [apply (sensitivity_eq 7); lia | by vm_compute].
Qed.

Lemma sensitivity_names_unique_witness :
  let s := Synthetic.initial_state in
  NoDup (map (name_of (store s)) (_params_for_sensitivity s)) /\
  (forall nm p q,
     p ∈ _params_for_sensitivity s -> q ∈ _params_for_sensitivity s ->
     name_of (store s) p = Some nm -> name_of (store s) q = Some nm -> p = q) /\
  (forall nm q,
     q ∈ _params_for_sensitivity s -> name_of (store s) q = Some nm ->
     exists s', get_parameter nm s = Ok (Some q, s')).
Proof.
  apply (sensitivity_names_unique Synthetic.rank Synthetic.eigenproblem_solve
           Synthetic.tracked_eigenvalue Synthetic.eigenvalue_sensitivity
           Synthetic.initial_state).
  apply initial_state_reachable.
Defined.

(** C6 (as stated) fails: [init] creates two different parameters, the
    material density and the air density, that are both named "rho", so the
    names of the ten parameters it creates are not all different. *)
Lemma parameter_names_counterexample :
  exists s,
    init 0 false constructed = Ok (tt, s) /\
    _rho (members s) <> _rho_air (members s) /\
    name_of (store s) (_rho (members s)) = Some "rho" /\
    name_of (store s) (_rho_air (members s)) = Some "rho" /\
    ~ NoDup (map (name_of (store s)) (created (members s))).
Proof.
  exists Synthetic.initial_state.
  split; [by vm_compute|]. split; [by vm_compute|].
  split; [by vm_compute|]. split; [by vm_compute|]. compute_done.
Qed.

Lemma solve_clear_frame_witness :
  exists s',
    solve_clear Synthetic.rank Synthetic.solved_state = Ok (tt, s') /\
    is_Some (_flutter_root Synthetic.solved_state) /\
    _flutter_root s' = None /\
    history (_flutter_solver s') = [] /\
    _basis s' = _basis Synthetic.solved_state /\
    _discipline s' = _discipline Synthetic.solved_state /\
    store s' = store Synthetic.solved_state.
Proof.
  destruct (solve_clear_frame Synthetic.rank Synthetic.eigenproblem_solve
              Synthetic.tracked_eigenvalue Synthetic.eigenvalue_sensitivity
              Synthetic.solved_state)
    as (s' & H1 & H2 & H3 & H4 & H5 & H6 & _); [by vm_compute|].
  exists s'. split; [exact H1|]. split; [compute_done|].
  split; [exact H2|]. split; [exact H3|]. split; [exact H4|].
  split; [exact H5 | exact H6].
Defined.

Lemma solve_basis_at_zero_velocity_witness :
  let s := Synthetic.initial_state in
  Synthetic.solve false (1 # 1000)%Q 18
    (set_store (<[6%nat := {| name := "V"; value := 1100%Q |}]> (store s)) s)
  = Synthetic.solve false (1 # 1000)%Q 18 s /\
  _basis Synthetic.solved_state
  = [Some [1; 0; 0]; Some [0; 1; 0]; Some [0; 0; 1]]%Q /\
  value <$> store Synthetic.solved_state !! 6%nat = Some 0%Q.
Proof.
  cbv zeta.
  assert (store Synthetic.initial_state
            !! _velocity (members Synthetic.initial_state)
          = Some {| name := "V"; value := 0%Q |}) as Hx by (by vm_compute).
  destruct (solve_basis_at_zero_velocity Synthetic.rank
              Synthetic.eigenproblem_solve Synthetic.tracked_eigenvalue
              false (1 # 1000)%Q 18 Synthetic.initial_state _ Hx)
    as (Hy & Hbasis).
  split; [exact (Hy 1100%Q)|].
  destruct (Hbasis (fst Synthetic.solved) Synthetic.solved_state solved_eq)
    as (_ & Hst & Hb & _).
  split; [rewrite Hb | rewrite Hst]; by vm_compute.
Defined.

Lemma registered_eq :
  Synthetic.sensitivity_solve (_E (members Synthetic.solved_state))
    Synthetic.registered_state
  = Ok (fst Synthetic.registered_sensitivity, snd Synthetic.registered_sensitivity).
Proof. by vm_compute. Qed.

Lemma sensitivity_solve_registry_restored_witness :
  let s := Synthetic.registered_state in
  let s' := snd Synthetic.registered_sensitivity in
  let E := _E (members Synthetic.solved_state) in
  let nu := _nu (members Synthetic.solved_state) in
  nu ∈ parameters (_discipline s) /\
  nu ∈ parameters (_discipline s') /\
  (E ∉ parameters (_discipline s')) /\
  _discipline s' = _discipline s.
Proof.
  cbv zeta.
  assert (_velocity (members Synthetic.registered_state)
          ∉ parameters (_discipline Synthetic.registered_state)) as HV
    by compute_done.
  assert (_E (members Synthetic.solved_state)
          ∉ parameters (_discipline Synthetic.registered_state)) as HE
    by compute_done.
  assert (_nu (members Synthetic.solved_state)
          ∈ parameters (_discipline Synthetic.registered_state)) as Hnu
    by compute_done.
  destruct (sensitivity_solve_registry_restored Synthetic.eigenvalue_sensitivity
              (_E (members Synthetic.solved_state)) Synthetic.registered_state
              (fst Synthetic.registered_sensitivity)
              (snd Synthetic.registered_sensitivity) HV HE registered_eq)
    as (Hiff & Hd & _).
  split; [exact Hnu|].
  split; [exact (proj2 (Hiff (_nu (members Synthetic.solved_state))) Hnu)|].
  split; [|exact Hd].
  intros H. exact (HE (proj1 (Hiff (_E (members Synthetic.solved_state))) H)).
Defined.

Lemma get_parameter_spec_witness :
  (exists s', get_parameter "thz" Synthetic.initial_state = Ok (Some 1%nat, s')) /\
  (exists s', get_parameter "rho" Synthetic.initial_state = Ok (None, s') /\
              out s' = [Text ""; Text "Parameter not found by name: rho";
                        Text "Valid names are: "; Text "   E"; Text "   nu";
                        Text "   thy"; Text "   thz"; Text ""]).
Proof.
  assert (Forall (fun p => is_Some (store Synthetic.initial_state !! p))
                 (_params_for_sensitivity Synthetic.initial_state)) as Hvalid
    by compute_done.
  split.
  - destruct (get_parameter_spec "thz" Synthetic.initial_state Hvalid)
      as (r & s' & Hget & _).
    assert (get_parameter "thz" Synthetic.initial_state
            = Ok (Some 1%nat, Synthetic.initial_state)) as E by (by vm_compute).
    rewrite E in Hget. injection Hget as <- <-. by eexists.
  - destruct (get_parameter_spec "rho" Synthetic.initial_state Hvalid)
      as (r & s' & Hget & _ & _ & Hr).
    assert (fst <$> (match get_parameter "rho" Synthetic.initial_state with
                     | Ok a => Some a | Err _ => None end) = Some None) as E
      by (by vm_compute).
    rewrite Hget in E. injection E as ->.
    exists s'. split; [done|]. destruct Hr as [_ ->]. by vm_compute.
Defined.

End DriverExamples.

(** * Further properties of the driver *)

Section DriverLifecycle.

Import FlutterSolver Analysis.

Variable rank : nat.
Variable eigenproblem_solve :
  gmap ptr Param -> StructuralDiscipline -> list (Complex * list Real).
Variable tracked_eigenvalue :
  gmap ptr Param -> StructuralDiscipline -> list (list Real) -> Real -> Complex.
Variable eigenvalue_sensitivity :
  gmap ptr Param -> StructuralDiscipline -> list (list Real) ->
  FlutterRootBase -> ptr -> Complex.

Abbreviation solve := (Analysis.solve rank eigenproblem_solve tracked_eigenvalue).
Abbreviation solve_modal := (Analysis.solve_modal eigenproblem_solve).
Abbreviation solve_flutter := (Analysis.solve_flutter tracked_eigenvalue).
Abbreviation sensitivity_solve := (Analysis.sensitivity_solve eigenvalue_sensitivity).
Abbreviation reachable :=
  (Analysis.reachable rank eigenproblem_solve tracked_eigenvalue
     eigenvalue_sensitivity).

Ltac step :=
  cbv [mbind M_bind mret M_ret get_state modify fail libmesh_assert print
       on_solver on_discipline].

(** X1.  The member functions guard on [_initialized]: on an object that is
    not initialized [init] succeeds and marks it initialized, while [solve]
    and [sensitivity_solve] abort on their first assertion; on an initialized
    object [init] aborts, so it cannot be run twice. *)
Theorem initialized_guards etype if_nonlin w (tol : Real) (n : nat) (p : ptr)
    (s : State) :
  if _initialized s
  then init etype if_nonlin s = Err (AssertionFailure "!_initialized")
  else (exists s', init etype if_nonlin s = Ok (tt, s') /\
                   _initialized s' = true /\
                   init etype if_nonlin s' = Err (AssertionFailure "!_initialized")) /\
       solve w tol n s = Err (AssertionFailure "_initialized") /\
       sensitivity_solve p s = Err (AssertionFailure "_initialized").
Proof.
  destruct (_initialized s) eqn:Hinit.
  - unfold init. by rewrite Hinit.
  - split; [|split].
    + unfold init at 1. rewrite Hinit. cbv [new_parameter].
      eexists. split; [reflexivity|]. split; [reflexivity|]. reflexivity.
    + by rewrite solve_eq, Hinit.
    + by apply sensitivity_solve_uninitialized.
Qed.

(** X2.  In every state the driver reaches, [sensitivity_solve] returns a
    value exactly when [_flutter_root] is not null, for every parameter. *)
Theorem sensitivity_solve_available (p : ptr) (s : State) :
  reachable s ->
  is_Ok (sensitivity_solve p s) = non_null (_flutter_root s).
Proof.
  intros Hreach.
  destruct (reachable_well_formed _ _ _ _ s Hreach) as (Hinit & _ & _ & _ & _ & Hroot).
  destruct (_flutter_root s) as [r|] eqn:Hr.
  - destruct (Hroot r eq_refl) as [rt Hrt].
    by rewrite (sensitivity_solve_eq eigenvalue_sensitivity p s r rt Hinit Hr Hrt).
  - by rewrite (sensitivity_solve_no_root eigenvalue_sensitivity p s Hinit Hr).
Qed.

(** ** What [init] sets up stays *)

Lemma init_constructed etype if_nonlin (s : State) :
  init etype if_nonlin constructed = Ok (tt, s) -> s = Synthetic.initial_state.
Proof.
  intros H. change (init etype if_nonlin constructed)
    with (init 0 false constructed) in H.
  rewrite initial_state_eq in H. by injection H.
Qed.

Lemma dom_at_zero_velocity (s : State) (x : Param) :
  store s !! _velocity (members s) = Some x ->
  dom (at_zero_velocity s x) = dom (store s).
Proof.
  intros Hx. unfold at_zero_velocity. rewrite dom_insert_L.
  apply (elem_of_dom_2 (store s)) in Hx.
  apply set_eq. intros q. rewrite elem_of_union, elem_of_singleton.
  split; [intros [->|?]; done | by right].
Qed.

(** The members, the system settings, the discipline and the sensitivity
    set are those [init] made, and the store holds the same objects under
    the same names. *)
Lemma reachable_static (s : State) :
  reachable s ->
  members s = members Synthetic.initial_state /\
  _sys s = _sys Synthetic.initial_state /\
  _discipline s = _discipline Synthetic.initial_state /\
  _params_for_sensitivity s = _params_for_sensitivity Synthetic.initial_state /\
  dom (store s) = dom (store Synthetic.initial_state) /\
  forall p, name_of (store s) p = name_of (store Synthetic.initial_state) p.
Proof.
  induction 1 as [etype if_nonlin s H | s nm r s' Hr IH H
                 | s w tol n v s' Hr IH H | s p v s' Hr IH H].
  - apply init_constructed in H as ->. by repeat split.
  - apply get_parameter_frame in H as [o ->]. exact IH.
  - destruct IH as (Hm & Hsys & Hd & Hp & Hdom & Hn).
    pose proof (solve_cases rank eigenproblem_solve tracked_eigenvalue w tol n s) as Hs.
    rewrite H in Hs. destruct Hs as (_ & x & rt & o & Hx & Hs).
    cbv zeta in Hs. destruct Hs as (_ & _ & _ & -> & _).
    cbn [members _sys _discipline _params_for_sensitivity store set_out
         set_flutter_root set_flutter_solver set_basis set_store Analysis.cleared].
    repeat split; try done.
    + by rewrite dom_at_zero_velocity.
    + intros q. by rewrite name_of_at_zero_velocity.
  - destruct IH as (Hm & Hsys & Hd & Hp & Hdom & Hn).
    destruct (reachable_well_formed _ _ _ _ s Hr) as (Hinit & Hpar & _).
    destruct (sensitivity_solve_registry _ p s v s' H) as (Hreg & Hbc & Hsub & Hvol).
    destruct (sensitivity_solve_inv _ p s v s' H) as (_ & r & rt & Hroot & Hrt).
    assert (_discipline s' = _discipline s) as Hd'.
    { rewrite Hpar, registry_empty, <- Hpar in Hreg.
      destruct (_discipline s'), (_discipline s). cbn in *. congruence. }
    rewrite Hd'.
    rewrite (sensitivity_solve_eq _ p s r rt Hinit Hroot Hrt) in H.
    injection H as _ <-. by repeat split.
Qed.

(** X3.  In every state the driver reaches, [get_parameter] answers by this
    table: the names "E", "nu", "thy" and "thz" give the members [_E], [_nu],
    [_thy] and [_thz], and every other name gives null, also the names of
    the six other parameters [init] creates. *)
Theorem get_parameter_table (nm : string) (s : State) :
  reachable s ->
  exists s',
    get_parameter nm s =
    Ok (if decide (nm = "E") then Some (_E (members s))
        else if decide (nm = "nu") then Some (_nu (members s))
        else if decide (nm = "thy") then Some (_thy (members s))
        else if decide (nm = "thz") then Some (_thz (members s))
        else None, s').
Proof.
  intros Hreach.
  pose proof (reachable_well_formed _ _ _ _ s Hreach) as Hwf.
  pose proof (well_formed_valid s Hwf) as Hvalid.
  destruct Hwf as (_ & _ & Hsens & _ & Hnames & _).
  cbn [created map] in Hnames. injection Hnames as Hthy Hthz _ HE Hnu _.
  rewrite (get_parameter_eq nm s Hvalid). cbv zeta. eexists. f_equal. f_equal.
  rewrite Hsens. rewrite !filter_cons, filter_nil, HE, Hnu, Hthy, Hthz.
  repeat case_decide; simplify_eq; done.
Qed.

(** The field functions a discipline refers to. *)
Lemma initial_state_references :
  let s := Synthetic.initial_state in
  let d := _discipline s in
  Forall (fun c =>
            Forall (fun f => f_param f ∈ dom (store s))
                   (section_properties c.2 ++ material c.2) /\
            NoDup (f_name <$> section_properties c.2) /\
            NoDup (f_name <$> material c.2) /\
            Forall (fun f => f_name f = "hy_off" \/ f_name f = "hz_off" ->
                             f_param f = _zero (members s))
                   (section_properties c.2))
         (subdomain_property d) /\
  Forall (fun b =>
            Forall (fun f => f_param f ∈ dom (store s)) (flow_properties b.2) /\
            NoDup (f_name <$> flow_properties b.2) /\
            Forall (fun f => f_name f = "V" ->
                             f_param f = _velocity (members s))
                   (flow_properties b.2))
         (volume_load d).
Proof.
  cbv zeta. split.
  - repeat constructor; try compute_done; cbn; intros [?|?]; try done.
  - repeat constructor; try compute_done; cbn; intros ?; done.
Qed.

(** X4.  In every state the driver reaches, each field function of the
    section property card, of its material and of the piston theory boundary
    condition refers to a parameter object that exists; within each of the
    three the field function names are pairwise different; the two section
    offsets refer to the one parameter [_zero]; and the boundary condition's
    velocity refers to [_velocity], the parameter [solve] sets to zero. *)
Theorem discipline_references (s : State) :
  reachable s ->
  Forall (fun c =>
            Forall (fun f => is_Some (store s !! f_param f))
                   (section_properties c.2 ++ material c.2) /\
            NoDup (f_name <$> section_properties c.2) /\
            NoDup (f_name <$> material c.2) /\
            Forall (fun f => f_name f = "hy_off" \/ f_name f = "hz_off" ->
                             f_param f = _zero (members s))
                   (section_properties c.2))
         (subdomain_property (_discipline s)) /\
  Forall (fun b =>
            Forall (fun f => is_Some (store s !! f_param f)) (flow_properties b.2) /\
            NoDup (f_name <$> flow_properties b.2) /\
            Forall (fun f => f_name f = "V" ->
                             f_param f = _velocity (members s))
                   (flow_properties b.2))
         (volume_load (_discipline s)).
Proof.
  intros Hreach.
  destruct (reachable_static s Hreach) as (Hm & _ & Hd & _ & Hdom & _).
  rewrite Hd, Hm.
  destruct initial_state_references as [Hc Hb]. split.
  - eapply Forall_impl; [exact Hc|]. intros c (H1 & H2 & H3 & H4).
    split; [|done]. eapply Forall_impl; [exact H1|].
    intros f Hf. apply elem_of_dom. by rewrite Hdom.
  - eapply Forall_impl; [exact Hb|]. intros b (H1 & H2 & H3).
    split; [|done]. eapply Forall_impl; [exact H1|].
    intros f Hf. apply elem_of_dom. by rewrite Hdom.
Qed.

(** ** The destructor *)

Lemma delete_all (l : list ptr) (s : State) :
  NoDup l -> Forall (fun p => is_Some (store s !! p)) l ->
  exists st,
    for_each l delete_parameter s = Ok (tt, set_store st s) /\
    dom st = dom (store s) ∖ list_to_set l.
Proof.
  revert s. induction l as [|p l IH]; intros s Hnd Hlive.
  - exists (store s). split; [by destruct s|].
    apply set_eq. intros q. rewrite elem_of_difference, list_to_set_nil.
    split; [intros ?; split; [done | apply not_elem_of_empty] | by intros [? _]].
  - apply NoDup_cons in Hnd as [Hp Hnd].
    apply Forall_cons in Hlive as [[x Hx] Hlive].
    rewrite for_each_cons. unfold delete_parameter at 1. rewrite Hx.
    destruct (IH (set_store (delete p (store s)) s) Hnd) as (st & Hrun & Hdom).
    { cbn [store set_store]. rewrite Forall_forall in Hlive |- *.
      intros q Hq. rewrite lookup_delete_ne; [by apply Hlive|].
      intros ->. done. }
    exists st. split; [exact Hrun|].
    rewrite Hdom. cbn [store set_store]. rewrite dom_delete_L, list_to_set_cons.
    apply set_eq. intros q.
    rewrite !elem_of_difference, elem_of_union, elem_of_singleton. tauto.
Qed.

(** X5.  The destructor does nothing on an object that was never
    initialized.  In every state the driver reaches it deletes each of the
    ten parameters [init] created exactly once, and no parameter object and
    no basis vector is left. *)
Theorem destructor_releases (s : State) :
  (_initialized s = false -> destructor s = Ok (tt, s)) /\
  (reachable s ->
   exists s', destructor s = Ok (tt, s') /\
              store s' = ∅ /\
              Forall (fun b => b = None) (_basis s') /\
              length (_basis s') = length (_basis s)).
Proof.
  split.
  - intros Hinit. unfold destructor. step. by rewrite Hinit.
  - intros Hreach.
    destruct (reachable_static s Hreach) as (Hm & _ & _ & _ & Hdom & _).
    destruct (reachable_well_formed _ _ _ _ s Hreach)
      as (Hinit & _ & _ & Hnd & Hnames & _).
    assert (dom (store s) = list_to_set (created (members s))) as Hcreated.
    { rewrite Hdom, Hm. compute_done. }
    destruct (delete_all (created (members s)) s Hnd) as (st & Hrun & Hst).
    { apply Forall_forall. intros q Hq. apply elem_of_dom.
      rewrite Hcreated. by apply elem_of_list_to_set. }
    unfold destructor. step. rewrite Hinit. cbn [negb]. rewrite Hrun.
    eexists. split; [reflexivity|]. cbn [store _basis set_basis set_store].
    split; [|split].
    + apply dom_empty_inv_L. rewrite Hst, Hcreated.
      apply set_eq. intros q. rewrite elem_of_difference.
      split; [by intros [? ?] | intros Hq; by apply not_elem_of_empty in Hq].
    + apply Forall_forall. intros b Hb. apply list_elem_of_fmap in Hb.
      by destruct Hb as (? & -> & _).
    + apply length_map.
Qed.

(** ** The course of [solve] *)

Lemma for_each_store_mode_out eigs w (k i : nat) (s s' : State) :
  (i + k <= length eigs)%nat ->
  for_each (seq i k) (store_mode eigs w) s = Ok (tt, s') ->
  out s' = out s ++ mode_log eigs w (seq i k).
Proof.
  revert i s. induction k as [|k IH]; intros i s Hlen.
  - intros [= <-]. cbn. by rewrite app_nil_r.
  - destruct (lookup_lt_is_Some_2 eigs i) as [[lam vec] Hi]; [lia|].
    cbn [seq]. rewrite for_each_cons, (store_mode_eq eigs w i s lam vec Hi).
    intros Hrun. apply IH in Hrun; [|lia]. rewrite Hrun.
    cbn [out set_out set_basis mode_log flat_map]. rewrite Hi.
    by rewrite <- !app_assoc.
Qed.

(** The modal analysis goes through when the basis is empty or has the size
    of the new set of modes, and stops on the assertion otherwise. *)
Lemma solve_modal_eq w (s : State) (x : Param) :
  store s !! _velocity (members s) = Some x ->
  let st0 := at_zero_velocity s x in
  let eigs := eigenproblem_solve st0 (_discipline s) in
  let nconv := (length eigs `min` n_requested_eigenvalues (_sys s))%nat in
  solve_modal w s =
  if bool_decide (_basis s = [] \/ length (_basis s) = nconv)
  then Ok (tt, set_out (out s ++ mode_log eigs w (seq 0 nconv))
                 (set_basis (modes eigs nconv) (set_store st0 s)))
  else Err (AssertionFailure "_basis.size() == nconv").
Proof.
  intros Hx st0 eigs nconv.
  unfold Analysis.solve_modal. step. unfold assign.
  rewrite Hx. cbn [store _discipline _sys _basis set_store].
  fold (at_zero_velocity s x). fold st0. fold eigs. fold nconv.
  assert (Hn : (0 + nconv <= length eigs)%nat) by lia.
  destruct (0 <? length (_basis s))%nat eqn:Hpos.
  - apply Nat.ltb_lt in Hpos.
    destruct (length (_basis s) =? nconv)%nat eqn:Hsz.
    + apply Nat.eqb_eq in Hsz.
      rewrite bool_decide_eq_true_2 by (by right).
      destruct (for_each_store_mode eigs w nconv 0 (set_store st0 s) Hn)
        as (o & b & Hrun & Hb & Hlook).
      pose proof (for_each_store_mode_out eigs w nconv 0 _ _ Hn Hrun) as Hout.
      cbn [out _basis set_out set_basis set_store] in *.
      assert (b = modes eigs nconv) as Hmodes
        by (eapply modes_intro; [| exact Hsz | exact Hb | exact Hlook]; lia).
      by rewrite Hrun, Hout, Hmodes.
    + apply Nat.eqb_neq in Hsz.
      rewrite bool_decide_eq_false_2; [done|].
      intros [Hnil|?]; [rewrite Hnil in Hpos; cbn in Hpos; lia | done].
  - apply Nat.ltb_ge in Hpos.
    assert (_basis s = []) as Hnil by (destruct (_basis s); [done | cbn in Hpos; lia]).
    rewrite bool_decide_eq_true_2 by (by left).
    destruct (for_each_store_mode eigs w nconv 0
                (set_basis (replicate nconv None) (set_store st0 s)) Hn)
      as (o & b & Hrun & Hb & Hlook).
    pose proof (for_each_store_mode_out eigs w nconv 0 _ _ Hn Hrun) as Hout.
    cbn [out _basis set_out set_basis set_store] in *.
    assert (b = modes eigs nconv) as Hmodes
      by (eapply modes_intro; [| | exact Hb | exact Hlook];
          [lia | by rewrite length_replicate]).
    by rewrite Hrun, Hout, Hmodes.
Qed.

Lemma solve_flutter_eq w (tol : Real) (n : nat) (s : State) basis :
  basis_of (_basis s) = Some basis ->
  let r := find_critical_root (tracked_eigenvalue (store s) (_discipline s) basis)
             1e3 1200 10 tol n in
  solve_flutter w tol n s =
  if found r
  then match critical r with
       | Some rt =>
           Ok (V rt,
               set_out (out s
                        ++ [SortedRoots (print_sorted_roots (searched s basis r))]
                        ++ if w then [FlutterMode "structural_flutter_mode.exo"]
                           else [])
                 (set_flutter_root (Some (length (evaluated r) - 1)%nat)
                    (set_flutter_solver (searched s basis r) s)))
       | None => Err InvalidPointer
       end
  else Err (AssertionFailure "sol.first").
Proof.
  intros Hb r. unfold Analysis.solve_flutter. step. rewrite Hb.
  unfold analyze_and_find_critical_root_without_tracking.
  cbn [_flutter_solver set_flutter_solver store _discipline V_range initialize
       attach_assembly set_assembly_attached n_divisions fst snd].
  fold r.
  destruct (find_critical_root_critical
              (tracked_eigenvalue (store s) (_discipline s) basis)
              1e3 1200 10 tol n) as [Hsome Hlast].
  fold r in Hsome, Hlast.
  destruct (found r) eqn:Hf; [|done].
  destruct Hsome as [rt Hrt]; [done|]. rewrite Hrt.
  assert (history (searched s basis r) !! (length (evaluated r) - 1)%nat = Some rt)
    as Hptr.
  { unfold searched. cbn [history clear_assembly_object set_assembly_attached
                          set_history].
    rewrite <- (Hlast rt Hrt), last_lookup, length_map.
    f_equal. lia. }
  cbn [fst snd andb _flutter_root set_flutter_root _flutter_solver
       set_flutter_solver set_out out option_bind mbind].
  rewrite length_map.
  unfold searched in Hptr |- *. unfold print_sorted_roots.
  destruct w; cbn [_flutter_root set_flutter_root _flutter_solver
       set_flutter_solver set_out out option_bind mbind];
  cbn [history clear_assembly_object set_assembly_attached set_history] in Hptr |- *;
  rewrite Hptr; rewrite <- ?app_assoc, ?app_nil_r; reflexivity.
Qed.

(** All of [solve] on an initialized object whose velocity parameter
    exists. *)
Lemma solve_unfold w (tol : Real) (n : nat) (s : State) (x : Param) :
  _initialized s = true ->
  store s !! _velocity (members s) = Some x ->
  let st0 := at_zero_velocity s x in
  let eigs := eigenproblem_solve st0 (_discipline s) in
  let nconv := (length eigs `min` n_requested_eigenvalues (_sys s))%nat in
  let basis := map snd (take nconv eigs) in
  let r := find_critical_root (tracked_eigenvalue st0 (_discipline s) basis)
             1e3 1200 10 tol n in
  let s2 := set_out (out s ++ mode_log eigs w (seq 0 nconv))
              (set_basis (modes eigs nconv)
                 (set_store st0 (Analysis.cleared rank s))) in
  solve w tol n s =
  if bool_decide (_basis s = [] \/ length (_basis s) = nconv)
  then if found r
       then match critical r with
            | Some rt =>
                Ok (V rt,
                    set_out (out s2
                             ++ [SortedRoots (print_sorted_roots (searched s2 basis r))]
                             ++ if w then [FlutterMode "structural_flutter_mode.exo"]
                                else [])
                      (set_flutter_root (Some (length (evaluated r) - 1)%nat)
                         (set_flutter_solver (searched s2 basis r) s2)))
            | None => Err InvalidPointer
            end
       else Err (AssertionFailure "sol.first")
  else Err (AssertionFailure "_basis.size() == nconv").
Proof.
  intros Hinit Hx. cbv zeta. rewrite solve_eq, Hinit.
  rewrite (solve_modal_eq w (Analysis.cleared rank s) x Hx). cbv zeta.
  change (_basis (Analysis.cleared rank s)) with (_basis s).
  change (_discipline (Analysis.cleared rank s)) with (_discipline s).
  change (_sys (Analysis.cleared rank s)) with (_sys s).
  change (out (Analysis.cleared rank s)) with (out s).
  change (at_zero_velocity (Analysis.cleared rank s) x) with (at_zero_velocity s x).
  destruct (bool_decide _); [|done].
  set (st0 := at_zero_velocity s x).
  set (eigs := eigenproblem_solve st0 (_discipline s)).
  set (nconv := (length eigs `min` n_requested_eigenvalues (_sys s))%nat).
  set (s2 := set_out _ _).
  assert (basis_of (_basis s2) = Some (map snd (take nconv eigs))) as Hb
    by apply basis_of_modes.
  rewrite (solve_flutter_eq w tol n s2 _ Hb). reflexivity.
Qed.

(** X6.  On an initialized object whose velocity parameter exists, [solve]
    stops on the assertion [_basis.size() == nconv] exactly when the basis it
    finds is not empty and its size differs from the number of modes of the
    new eigen-solve (the converged ones, at most the requested number);
    an empty basis is resized instead. *)
Theorem basis_size_guard w (tol : Real) (n : nat) (s : State) (x : Param) :
  _initialized s = true ->
  store s !! _velocity (members s) = Some x ->
  let eigs := eigenproblem_solve (at_zero_velocity s x) (_discipline s) in
  let nconv := (length eigs `min` n_requested_eigenvalues (_sys s))%nat in
  solve w tol n s = Err (AssertionFailure "_basis.size() == nconv")
  <-> _basis s <> [] /\ length (_basis s) <> nconv.
Proof.
  intros Hinit Hx. cbv zeta.
  rewrite (solve_unfold w tol n s x Hinit Hx). cbv zeta.
  case_bool_decide as Hb.
  - split.
    + destruct (found _); [destruct (critical _)|]; discriminate.
    + intros [? ?]. destruct Hb; done.
  - split; [|done]. intros _. split; intros ?; apply Hb; [by left | by right].
Qed.

(** X7.  When [solve] returns, it has added to the log, in this order: for
    each mode of the basis the real part of its eigenvalue, followed, when
    output is requested, by a time step of modes.exo numbered from 1; the
    sorted listing of the solver's roots; and, when output is requested, the
    flutter mode file.  Nothing else is added to the log. *)
Theorem solve_log w (tol : Real) (n : nat) (s : State) (v : Real) (s' : State) :
  solve w tol n s = Ok (v, s') ->
  exists x,
    store s !! _velocity (members s) = Some x /\
    let eigs := eigenproblem_solve (at_zero_velocity s x) (_discipline s) in
    let nconv := length (_basis s') in
    out s' = out s
             ++ mode_log eigs w (seq 0 nconv)
             ++ [SortedRoots (print_sorted_roots (_flutter_solver s'))]
             ++ (if w then [FlutterMode "structural_flutter_mode.exo"] else []).
Proof.
  intros Hsolve.
  pose proof (solve_cases rank eigenproblem_solve tracked_eigenvalue w tol n s) as Hs.
  rewrite Hsolve in Hs. destruct Hs as (Hinit & x & _ & _ & Hx & _).
  exists x. split; [done|]. cbv zeta.
  rewrite (solve_unfold w tol n s x Hinit Hx) in Hsolve. cbv zeta in Hsolve.
  set (eigs := eigenproblem_solve (at_zero_velocity s x) (_discipline s)) in *.
  set (nconv := (length eigs `min` n_requested_eigenvalues (_sys s))%nat) in *.
  destruct (bool_decide _); [|done].
  destruct (found _); [|done]. destruct (critical _) as [rt|]; [|done].
  injection Hsolve as _ <-.
  cbn [out _basis _flutter_solver set_out set_flutter_root set_flutter_solver
       set_basis].
  assert (length (modes eigs nconv) = nconv) as Hlen.
  { unfold modes. rewrite length_map, length_take. lia. }
  rewrite Hlen. by rewrite <- !app_assoc.
Qed.

(** What a returning [solve] leaves, in full. *)
Lemma solve_inv w (tol : Real) (n : nat) (s : State) (v : Real) (s' : State) :
  solve w tol n s = Ok (v, s') ->
  _initialized s = true /\
  exists x rt,
    store s !! _velocity (members s) = Some x /\
    let st0 := at_zero_velocity s x in
    let eigs := eigenproblem_solve st0 (_discipline s) in
    let nconv := (length eigs `min` n_requested_eigenvalues (_sys s))%nat in
    let basis := map snd (take nconv eigs) in
    let r := find_critical_root (tracked_eigenvalue st0 (_discipline s) basis)
               1e3 1200 10 tol n in
    let s2 := set_out (out s ++ mode_log eigs w (seq 0 nconv))
                (set_basis (modes eigs nconv)
                   (set_store st0 (Analysis.cleared rank s))) in
    (_basis s = [] \/ length (_basis s) = nconv) /\
    found r = true /\ critical r = Some rt /\ v = V rt /\
    history (searched s2 basis r) !! (length (evaluated r) - 1)%nat = Some rt /\
    s' = set_out (out s2
                  ++ [SortedRoots (print_sorted_roots (searched s2 basis r))]
                  ++ if w then [FlutterMode "structural_flutter_mode.exo"] else [])
           (set_flutter_root (Some (length (evaluated r) - 1)%nat)
              (set_flutter_solver (searched s2 basis r) s2)).
Proof.
  intros Hsolve.
  pose proof (solve_cases rank eigenproblem_solve tracked_eigenvalue w tol n s) as Hs.
  rewrite Hsolve in Hs. destruct Hs as (Hinit & x & rt & o & Hx & Hs).
  split; [done|]. exists x, rt. split; [done|].
  cbv zeta in Hs |- *. destruct Hs as (Hf & Hc & Hv & _ & Hptr).
  rewrite (solve_unfold w tol n s x Hinit Hx) in Hsolve. cbv zeta in Hsolve.
  rewrite Hf, Hc in Hsolve.
  case_bool_decide as Hb; [|done]. injection Hsolve as _ <-.
  repeat split; try done.
Qed.

(** X8.  When [solve] returns [v], [_flutter_root] is not null and points to
    a root held by the flutter solver whose velocity is [v]; the solver is
    set up with the velocity parameter, the range from 1000 to 1200 in 10
    divisions and the basis [solve] leaves, whose size is the number of
    modes; no assembly is left attached; and on processor 0 the output file
    is flutter_output.txt. *)
Theorem solve_result w (tol : Real) (n : nat) (s : State) (v : Real) (s' : State) :
  solve w tol n s = Ok (v, s') ->
  (exists r rt, _flutter_root s' = Some r /\
                history (_flutter_solver s') !! r = Some rt /\ V rt = v) /\
  velocity_param (_flutter_solver s') = Some (_velocity (members s')) /\
  V_range (_flutter_solver s') = (1e3, 1200)%Q /\
  n_divisions (_flutter_solver s') = 10%nat /\
  basis_of (_basis s') = Some (basis_vectors (_flutter_solver s')) /\
  (length (_basis s') <= n_requested_eigenvalues (_sys s'))%nat /\
  assembly_attached (_flutter_solver s') = false /\
  (rank = 0%nat ->
   output_file (_flutter_solver s') = Some "flutter_output.txt").
Proof.
  intros Hsolve. destruct (solve_inv w tol n s v s' Hsolve)
    as (Hinit & x & rt & Hx & Hs).
  cbv zeta in Hs. destruct Hs as (_ & _ & _ & Hv & Hptr & ->).
  cbn [_flutter_root _flutter_solver _basis _sys members set_out set_flutter_root
       set_flutter_solver set_basis set_store Analysis.cleared].
  split; [by eauto|].
  unfold searched.
  cbn [velocity_param V_range n_divisions basis_vectors assembly_attached
       output_file clear_assembly_object set_assembly_attached set_history
       initialize attach_assembly _flutter_solver members set_out set_basis
       set_store set_flutter_solver set_flutter_root Analysis.cleared].
  repeat split; try done.
  - by rewrite basis_of_modes.
  - unfold modes. rewrite length_map, length_take. lia.
  - intros ->. reflexivity.
Qed.

(** X10.  In every state the driver reaches, the basis holds at most three
    vectors, the number of eigenvalues [init] requests, and none of its
    pointers is null; and the assembly that [solve] and [sensitivity_solve]
    attach to the flutter solver has been detached again. *)
Theorem reachable_basis (s : State) :
  reachable s ->
  Forall is_Some (_basis s) /\
  (length (_basis s) <= 3)%nat /\
  n_requested_eigenvalues (_sys s) = 3%nat /\
  assembly_attached (_flutter_solver s) = false.
Proof.
  induction 1 as [etype if_nonlin s H | s nm r s' Hr IH H
                 | s w tol n v s' Hr IH H | s p v s' Hr IH H].
  - apply init_constructed in H as ->. repeat split; compute_done.
  - apply get_parameter_frame in H as [o ->]. exact IH.
  - destruct IH as (_ & _ & Hreq & _).
    destruct (solve_inv w tol n s v s' H) as (_ & x & rt & _ & Hs).
    cbv zeta in Hs. destruct Hs as (_ & _ & _ & _ & _ & ->).
    cbn [_basis _sys _flutter_solver set_out set_flutter_root set_flutter_solver
         set_basis set_store Analysis.cleared].
    split; [|split; [|done]].
    + unfold modes. apply Forall_forall. intros b Hb.
      apply list_elem_of_fmap in Hb as (e & -> & _). by eexists.
    + unfold modes. rewrite length_map, length_take. lia.
  - destruct IH as (Hb & Hlen & Hreq & _).
    destruct (reachable_well_formed _ _ _ _ s Hr) as (Hinit & _).
    destruct (sensitivity_solve_inv _ p s v s' H) as (_ & r & rt & Hroot & Hrt).
    rewrite (sensitivity_solve_eq _ p s r rt Hinit Hroot Hrt) in H.
    injection H as _ <-. by repeat split.
Qed.

End DriverLifecycle.

(** * The further properties on the synthetic problem *)

Section LifecycleExamples.

Import FlutterSolver Analysis.

Lemma sensitivity_solve_available_witness :
  is_Ok (Synthetic.sensitivity_solve 8%nat Synthetic.solved_state) = true /\
  is_Ok (Synthetic.sensitivity_solve 8%nat Synthetic.initial_state) = false.
Proof.
  split.
  - rewrite (sensitivity_solve_available Synthetic.rank
               Synthetic.eigenproblem_solve Synthetic.tracked_eigenvalue
               Synthetic.eigenvalue_sensitivity 8%nat Synthetic.solved_state
               solved_state_reachable).
    by vm_compute.
  - rewrite (sensitivity_solve_available Synthetic.rank
               Synthetic.eigenproblem_solve Synthetic.tracked_eigenvalue
               Synthetic.eigenvalue_sensitivity 8%nat Synthetic.initial_state
               initial_state_reachable).
    by vm_compute.
Defined.

Lemma get_parameter_table_witness :
  (exists s', get_parameter "thy" Synthetic.solved_state = Ok (Some 0%nat, s')) /\
  (exists s', get_parameter "mach" Synthetic.solved_state = Ok (None, s')).
Proof.
  assert (members Synthetic.solved_state = members Synthetic.initial_state) as Hm
    by (by vm_compute).
  split.
  - destruct (get_parameter_table Synthetic.rank Synthetic.eigenproblem_solve
                Synthetic.tracked_eigenvalue Synthetic.eigenvalue_sensitivity
                "thy" Synthetic.solved_state solved_state_reachable) as [s' H].
    exists s'. rewrite H, Hm. reflexivity.
  - destruct (get_parameter_table Synthetic.rank Synthetic.eigenproblem_solve
                Synthetic.tracked_eigenvalue Synthetic.eigenvalue_sensitivity
                "mach" Synthetic.solved_state solved_state_reachable) as [s' H].
    exists s'. rewrite H. reflexivity.
Defined.

Lemma discipline_references_witness :
  Forall (fun b =>
            Forall (fun f => is_Some (store Synthetic.initial_state !! f_param f))
                   (flow_properties b.2))
         (volume_load (_discipline Synthetic.initial_state)).
Proof.
  destruct (discipline_references Synthetic.rank Synthetic.eigenproblem_solve
              Synthetic.tracked_eigenvalue Synthetic.eigenvalue_sensitivity
              Synthetic.initial_state initial_state_reachable) as [_ Hb].
  eapply Forall_impl; [exact Hb|]. intros b H. exact (proj1 H).
Defined.

Lemma destructor_releases_witness :
  exists s', destructor Synthetic.initial_state = Ok (tt, s') /\ store s' = ∅.
Proof.
  destruct (proj2 (destructor_releases Synthetic.rank Synthetic.eigenproblem_solve
                     Synthetic.tracked_eigenvalue Synthetic.eigenvalue_sensitivity
                     Synthetic.initial_state) initial_state_reachable)
    as (s' & H1 & H2 & _).
  exists s'. split; [exact H1 | exact H2].
Defined.

(** An object with a basis of one vector, as a solve with one converged mode
    would have left it. *)
Lemma basis_size_guard_witness :
  Synthetic.solve false (1 # 1000)%Q 18
    (set_basis [Some [1%Q]] Synthetic.initial_state)
  = Err (AssertionFailure "_basis.size() == nconv").
Proof.
  apply (basis_size_guard Synthetic.rank Synthetic.eigenproblem_solve
           Synthetic.tracked_eigenvalue false (1 # 1000)%Q 18
           (set_basis [Some [1%Q]] Synthetic.initial_state)
           {| name := "V"; value := 0%Q |});
    [by vm_compute | by vm_compute | split; by vm_compute].
Defined.

Lemma solve_log_witness :
  exists modes_log,
    out Synthetic.solved_state
    = out Synthetic.initial_state
      ++ modes_log
      ++ [SortedRoots (print_sorted_roots (_flutter_solver Synthetic.solved_state))]
      ++ [].
Proof.
  destruct (solve_log Synthetic.rank Synthetic.eigenproblem_solve
              Synthetic.tracked_eigenvalue false (1 # 1000)%Q 18
              Synthetic.initial_state _ _ solved_eq) as (x & _ & Hout).
  eexists. exact Hout.
Defined.

Lemma solve_result_witness :
  n_divisions (_flutter_solver Synthetic.solved_state) = 10%nat /\
  output_file (_flutter_solver Synthetic.solved_state) = Some "flutter_output.txt".
Proof.
  destruct (solve_result Synthetic.rank Synthetic.eigenproblem_solve
              Synthetic.tracked_eigenvalue false (1 # 1000)%Q 18
              Synthetic.initial_state _ _ solved_eq)
    as (_ & _ & _ & Hdiv & _ & _ & _ & Hfile).
  split; [exact Hdiv | exact (Hfile eq_refl)].
Defined.

Lemma reachable_basis_witness :
  Forall is_Some (_basis Synthetic.solved_state) /\
  (length (_basis Synthetic.solved_state) <= 3)%nat.
Proof.
  destruct (reachable_basis Synthetic.rank Synthetic.eigenproblem_solve
              Synthetic.tracked_eigenvalue Synthetic.eigenvalue_sensitivity
              Synthetic.solved_state solved_state_reachable) as (H1 & H2 & _).
  split; [exact H1 | exact H2].
Defined.

End LifecycleExamples.
